(** * Health & Alert Monitor

    A shallow embedding of the [SystemHealthMonitor] class (the system
    health monitoring and alerting service): its life cycle, the four
    probes of the health-check cycle, and the alert pipeline from a probe
    result to the calls to the notification manager; followed by the
    properties of these, of the general-monitoring cycle and of the
    shared instance.

    - JavaScript numbers that hold clock readings and identifiers are
      integers ([Z]), printed as the binary64 number that holds them;
      heap sizes and the process uptime are binary64 floats ([float]),
      computed with the operations of the host language.
    - An awaited [async] method is modelled by its sequential meaning:
      [await] hands back the value of a fulfilled promise and re-raises
      the reason of a rejected one.  The one call that is not awaited,
      [initialize] in the constructor, is split at its first [await].
    - Console output, timer registration and calls to the notification
      manager are recorded in one chronological trace. *)

From Stdlib Require Import ZArith List String Ascii Bool Lia Floats DecimalString
  DecimalZ.
Import ListNotations.
Local Open Scope string_scope.
Local Open Scope Z_scope.

(** ** The host language *)

Module Js.

(** An exception value: the code reads nothing but [error.message]. *)
Record Error := { message : string }.

(** How a call ends: it returns, or it throws. *)
Inductive Completion (A : Type) :=
| Normal (a : A)
| Throw (e : Error).
Arguments Normal {A} a.
Arguments Throw {A} e.

(** Values of type [any] that end up in [details]. *)
Inductive Value :=
| undefined
| null
| boolean (b : bool)
| int (z : Z)
| number (f : float)
| str (s : string)
| inherited (member : string).

Definition truthy (v : Value) : bool :=
  match v with
  | undefined | null => false
  | boolean b => b
  | int z => negb (z =? 0)
  | number f => negb (PrimFloat.eqb f 0%float || negb (PrimFloat.eqb f f))
  | str s => negb (String.eqb s "")
  | inherited _ => true
  end.

(** [a || b] *)
Definition or (a b : Value) : Value := if truthy a then a else b.

(** A plain object used as a record of named values: its own
    properties, in the order of the literal. *)
Definition Object := list (string * Value).

Fixpoint getOwn (o : Object) (k : string) : option Value :=
  match o with
  | [] => None
  | (k', v) :: o' => if String.eqb k' k then Some v else getOwn o' k
  end.

(** What every plain object inherits from [Object.prototype]. *)
Definition Object_prototype : list string :=
  [ "constructor"; "hasOwnProperty"; "isPrototypeOf"; "propertyIsEnumerable";
    "toLocaleString"; "toString"; "valueOf"; "__proto__";
    "__defineGetter__"; "__defineSetter__"; "__lookupGetter__";
    "__lookupSetter__" ].

Definition isInherited (k : string) : bool :=
  existsb (String.eqb k) Object_prototype.

(** [o[k]]: an own property, else an inherited member, else [undefined]. *)
Definition get (o : Object) (k : string) : Value :=
  match getOwn o k with
  | Some v => v
  | None => if isInherited k then inherited k else undefined
  end.

(** [rows[0]?.column] *)
Definition first_row_column (rows : list Object) (column : string) : Value :=
  match rows with
  | [] => undefined
  | row :: _ => get row column
  end.

(** [s.includes(sub)] *)
Fixpoint includes (s sub : string) : bool :=
  if String.prefix sub s then true
  else match s with
       | EmptyString => false
       | String _ s' => includes s' sub
       end.

(** [x || fallback] on an optional string: [undefined] and the empty
    string are falsy. *)
Definition or_string (x : option string) (fallback : string) : string :=
  match x with
  | Some s => if String.eqb s "" then fallback else s
  | None => fallback
  end.

(** The decimal digits of an integer, with a minus sign when negative. *)
Definition decimal (z : Z) : string := NilZero.string_of_int (Z.to_int z).

(** The integer held by the binary64 number nearest to [z], ties to even:
    what a number holds once the integer [z] is stored in it.  [None]
    stands for an infinity. *)
Definition nearest (z : Z) : option Z :=
  match binary_normalize prec emax z 0 false with
  | S754_zero _ => Some 0
  | S754_finite s m e =>
      let n := if s then Z.neg m else Z.pos m in
      Some (if 0 <=? e then n * 2 ^ e else n / 2 ^ (- e))
  | _ => None
  end.

(** The decimal [c] denotes the number that holds [v]. *)
Definition readsBack (v c : Z) : bool :=
  match nearest c with
  | Some w => w =? v
  | None => false
  end.

(** The digits [Number.prototype.toString] prints for a positive integer
    [v] of [n] decimal digits that a number holds: the least count [k] of
    digits, tried in turn, for which some [s] of [k] digits followed by
    [n - k] zeros reads back as [v]; of two such [s], the one nearer to
    [v], and the even one when they are equally near.  The answer is
    [(s, k, n)]; rounding up to a power of ten gives one more digit. *)
Fixpoint shortest (fuel : nat) (k v n : Z) : Z * Z * Z :=
  match fuel with
  | O => (v, n, n)
  | S fuel' =>
      let p := 10 ^ (n - k) in
      let lo := v / p in
      let hi := lo + 1 in
      let pick :=
        match readsBack v (lo * p), readsBack v (hi * p) with
        | true, true =>
            if v - lo * p <? hi * p - v then Some lo
            else if hi * p - v <? v - lo * p then Some hi
            else Some (if Z.even lo then lo else hi)
        | true, false => Some lo
        | false, true => Some hi
        | false, false => None
        end in
      match pick with
      | Some s => if s =? 10 ^ k then (1, 1, n + 1) else (s, k, n)
      | None => shortest fuel' (k + 1) v n
      end
  end.

Fixpoint zeros (n : nat) : string :=
  match n with
  | O => ""
  | S n' => String "0" (zeros n')
  end.

(** [Number.prototype.toString] on the number nearest to the integer
    [z]: the shortest digits, padded with zeros up to 21 digits, and in
    exponent form beyond. *)
Definition Number_digits (z : Z) : string :=
  match nearest z with
  | None => if z <? 0 then "-Infinity" else "Infinity"
  | Some 0 => "0"
  | Some v =>
      let size := Z.of_nat (String.length (decimal (Z.abs v))) in
      let '(s, k, n) := shortest (Z.to_nat size) 1 (Z.abs v) size in
      (if v <? 0 then "-" else "") ++
      (if n <=? 21 then decimal s ++ zeros (Z.to_nat (n - k))
       else
         match decimal s with
         | String d EmptyString => String d "e+" ++ decimal (n - 1)
         | String d rest => String d ("." ++ rest) ++ "e+" ++ decimal (n - 1)
         | EmptyString => ""
         end)
  end.

(** [n.toString()] for a number given by the integer [z].  A number holds
    every integer up to 2^53 in magnitude as it is, and its shortest
    digits are then all of its digits; a larger [z] is first rounded to
    the nearest number. *)
Definition Z_toString (z : Z) : string :=
  if Z.abs z <=? 2 ^ 53 then decimal z else Number_digits z.

(** [Math.floor] and [Math.round] on a binary64 value; zeros, infinities
    and NaN are returned unchanged. *)
Definition Math_floor (x : float) : Value :=
  match Prim2SF x with
  | S754_finite s m e =>
      let n := if s then Z.neg m else Z.pos m in
      int (if 0 <=? e then n * 2 ^ e else n / 2 ^ (- e))
  | _ => number x
  end.

Definition Math_round (x : float) : Value :=
  match Prim2SF x with
  | S754_finite s m e =>
      let n := if s then Z.neg m else Z.pos m in
      int (if 0 <=? e then n * 2 ^ e else (2 * n + 2 ^ (- e)) / 2 ^ (- e + 1))
  | _ => number x
  end.

(** The text a template literal gives for a number. *)
Definition Number_toString (v : Value) : string :=
  match v with
  | int z => Z_toString z
  | number f =>
      if PrimFloat.eqb f 0%float then "0"
      else if PrimFloat.eqb f infinity then "Infinity"
      else if PrimFloat.eqb f neg_infinity then "-Infinity"
      else "NaN"
  | _ => ""
  end.

(** The settled state of a promise, as [Promise.allSettled] reports it. *)
Inductive PromiseSettledResult (A : Type) :=
| fulfilled (value : A)
| rejected (reason : Error).
Arguments fulfilled {A} value.
Arguments rejected {A} reason.

(** A [Map] keeps its keys in insertion order; [set] on a key already
    present overwrites the value in place. *)
Definition Map (V : Type) := list (string * V).

Fixpoint Map_set {V} (m : Map V) (k : string) (v : V) : Map V :=
  match m with
  | [] => [(k, v)]
  | (k', v') :: m' =>
      if String.eqb k' k then (k, v) :: m' else (k', v') :: Map_set m' k v
  end.

Fixpoint Map_get {V} (m : Map V) (k : string) : option V :=
  match m with
  | [] => None
  | (k', v) :: m' => if String.eqb k' k then Some v else Map_get m' k
  end.

(** [Array.from(m.values())] *)
Definition Map_values {V} (m : Map V) : list V := map snd m.

End Js.

(** ** The data model *)

Module Status.
Inductive t := healthy | warning | critical | unknown.

Definition toString (s : t) : string :=
  match s with
  | healthy => "healthy"
  | warning => "warning"
  | critical => "critical"
  | unknown => "unknown"
  end.

Definition eqb (a b : t) : bool :=
  match a, b with
  | healthy, healthy | warning, warning
  | critical, critical | unknown, unknown => true
  | _, _ => false
  end.
End Status.

Module HealthCheckResult.
Record t := {
  checkName : string;
  checkName_ar : string;
  status : Status.t;
  duration : Z;
  details : Js.Object;
  error : option string
}.
End HealthCheckResult.

Module AlertType.
Inductive t := system | production | quality | inventory | maintenance | security.

Definition toString (a : t) : string :=
  match a with
  | system => "system"
  | production => "production"
  | quality => "quality"
  | inventory => "inventory"
  | maintenance => "maintenance"
  | security => "security"
  end.
End AlertType.

Module Category.
Inductive t := warning | error | critical | info | success.
End Category.

Module Severity.
Inductive t := low | medium | high | critical.

Definition eqb (a b : t) : bool :=
  match a, b with
  | low, low | medium, medium | high, high | critical, critical => true
  | _, _ => false
  end.
End Severity.

Module AlertCondition.
Inductive Operator := gt | lt | ge | le | eq | ne.
Record t := {
  metric : string;
  operator : Operator;
  value : Z;
  severity : Severity.t
}.
End AlertCondition.

Module SuggestedAction.
Record t := {
  action : string;
  priority : Z;
  description : option string
}.
End SuggestedAction.

Module SmartAlert.
Record t := {
  id : option Z;
  title : string;
  title_ar : string;
  message : string;
  message_ar : string;
  type : AlertType.t;
  category : Category.t;
  severity : Severity.t;
  source : string;
  source_id : option string;
  context_data : option Js.Object;
  suggested_actions : option (list SuggestedAction.t);
  target_users : option (list Z);
  target_roles : option (list Z);
  requires_action : bool
}.
End SmartAlert.

(** Modelled from the spec: the row type of the alerts table is declared
    in the shared schema, outside the sources; its fields are those of
    the literal [createSystemAlert] builds. *)
Module InsertSystemAlert.
Record t := {
  title : string;
  title_ar : string;
  message : string;
  message_ar : string;
  type : AlertType.t;
  category : Category.t;
  severity : Severity.t;
  source : string;
  source_id : option string;
  requires_action : bool;
  context_data : option Js.Object;
  suggested_actions : option (list SuggestedAction.t);
  target_users : option (list Z);
  target_roles : option (list Z);
  notification_sent : bool
}.
End InsertSystemAlert.

(** Modelled from the spec: the row type of the health-check table is
    declared in the shared schema, outside the sources; its fields are
    those of the literal [processHealthCheckResult] builds. *)
Module InsertSystemHealthCheck.
Record t := {
  check_name : string;
  check_name_ar : string;
  check_type : string;
  status : Status.t;
  last_check_time : Z;
  check_duration_ms : Z;
  check_details : Js.Object;
  last_error : option string
}.
End InsertSystemHealthCheck.

(** Modelled from the spec: [AlertRule] is declared in the shared schema,
    which is not among the sources; the spec describes it as a
    configuration entry mapping a metric condition to a severity.  The
    monitor never looks inside a rule. *)
Module AlertRule.
Record t := { condition : AlertCondition.t }.
End AlertRule.

Module Priority.
Inductive t := urgent | high | normal.
End Priority.

Module RecipientType.
Inductive t := role | user.
End RecipientType.

(** Modelled from the spec: the payload type is declared with the
    notification manager, outside the sources; its fields are those the
    spec lists and the literal in [sendAlertNotification] sets. *)
Module NotificationData.
Record t := {
  title : string;
  message : string;
  type : AlertType.t;
  priority : Priority.t;
  recipient_type : RecipientType.t;
  recipient_id : string;
  context_type : AlertType.t;
  context_id : option string;
  sound : bool;
  icon : Js.Value
}.
End NotificationData.

(** ** The probes

    A probe reads the clock, awaits its host calls inside [try], and reads
    the clock again to compute the duration, in the [try] block or in the
    handler.  [Run] is what one run of a probe observes. *)

Record Run (A : Type) := {
  startTime : Z;
  awaited : Js.Completion A;
  endTime : Z
}.
Arguments startTime {A} r.
Arguments awaited {A} r.
Arguments endTime {A} r.

(** [process.memoryUsage()] *)
Record MemoryUsage := {
  heapTotal : float;
  heapUsed : float;
  external : float
}.

(** [process.uptime()], [process.version], [process.platform], [process.pid] *)
Record ProcessInfo := {
  uptime : float;
  version : string;
  platform : string;
  pid : Z
}.

Definition Promise := Js.PromiseSettledResult.

Import HealthCheckResult.

Definition checkDatabaseConnection (run : Run (list Js.Object))
  : Promise HealthCheckResult.t :=
  match awaited run with
  | Js.Normal _ =>
      let duration := endTime run - startTime run in
      Js.fulfilled {|
        checkName := "Database Connection";
        checkName_ar := "اتصال قاعدة البيانات";
        status := if 5000 <? duration then Status.critical
                  else if 1000 <? duration then Status.warning
                  else Status.healthy;
        duration := duration;
        details := [("responseTime", Js.int duration);
                    ("connected", Js.boolean true)];
        error := None
      |}
  | Js.Throw error =>
      Js.fulfilled {|
        checkName := "Database Connection";
        checkName_ar := "اتصال قاعدة البيانات";
        status := Status.critical;
        duration := endTime run - startTime run;
        details := [("connected", Js.boolean false)];
        error := Some (Js.message error)
      |}
  end.

(** The two queries are awaited one after the other; [awaited] is the pair
    of their rows, or the exception of the first one that throws. *)
Definition checkDatabasePerformance (run : Run (list Js.Object * list Js.Object))
  : Promise HealthCheckResult.t :=
  match awaited run with
  | Js.Normal (activeConnections, dbSize) =>
      let duration := endTime run - startTime run in
      let connectionCount :=
        Js.or (Js.first_row_column activeConnections "active_connections")
              (Js.int 0) in
      Js.fulfilled {|
        checkName := "Database Performance";
        checkName_ar := "أداء قاعدة البيانات";
        status := if 2000 <? duration then Status.critical
                  else if 500 <? duration then Status.warning
                  else Status.healthy;
        duration := duration;
        details := [("activeConnections", connectionCount);
                    ("databaseSize", Js.first_row_column dbSize "db_size");
                    ("queryTime", Js.int duration)];
        error := None
      |}
  | Js.Throw error =>
      Js.fulfilled {|
        checkName := "Database Performance";
        checkName_ar := "أداء قاعدة البيانات";
        status := Status.critical;
        duration := endTime run - startTime run;
        details := [];
        error := Some (Js.message error)
      |}
  end.

Definition usagePercent (memoryUsage : MemoryUsage) : float :=
  (heapUsed memoryUsage / heapTotal memoryUsage * 100)%float.

Definition checkSystemMemory (run : Run MemoryUsage)
  : Promise HealthCheckResult.t :=
  match awaited run with
  | Js.Normal memoryUsage =>
      let totalMemory := heapTotal memoryUsage in
      let usedMemory := heapUsed memoryUsage in
      let usagePercent := (usedMemory / totalMemory * 100)%float in
      Js.fulfilled {|
        checkName := "Memory Usage";
        checkName_ar := "استخدام الذاكرة";
        status := if (95 <? usagePercent)%float then Status.critical
                  else if (80 <? usagePercent)%float then Status.warning
                  else Status.healthy;
        duration := endTime run - startTime run;
        details :=
          [("usagePercent", Js.Math_round usagePercent);
           ("usedMemory", Js.Math_round (usedMemory / 1024 / 1024)%float);
           ("totalMemory", Js.Math_round (totalMemory / 1024 / 1024)%float);
           ("external",
             Js.Math_round (external memoryUsage / 1024 / 1024)%float)];
        error := None
      |}
  | Js.Throw error =>
      Js.fulfilled {|
        checkName := "Memory Usage";
        checkName_ar := "استخدام الذاكرة";
        status := Status.unknown;
        duration := endTime run - startTime run;
        details := [];
        error := Some (Js.message error)
      |}
  end.

Definition checkSystemHealth (run : Run ProcessInfo)
  : Promise HealthCheckResult.t :=
  match awaited run with
  | Js.Normal process =>
      let uptimeHours := (uptime process / 3600)%float in
      Js.fulfilled {|
        checkName := "System Health API";
        checkName_ar := "API سلامة النظام";
        status := Status.healthy;
        duration := endTime run - startTime run;
        details :=
          [("uptime",
             Js.str (Js.Number_toString (Js.Math_floor uptimeHours) ++ " ساعة"));
           ("nodeVersion", Js.str (version process));
           ("platform", Js.str (platform process));
           ("processId", Js.int (pid process))];
        error := None
      |}
  | Js.Throw error =>
      Js.fulfilled {|
        checkName := "System Health API";
        checkName_ar := "API سلامة النظام";
        status := Status.critical;
        duration := endTime run - startTime run;
        details := [];
        error := Some (Js.message error)
      |}
  end.

(** ** The monitor's state and its effects *)

(** Modelled from the spec: the storage facade is declared outside the
    sources; the monitor only passes it on to [getNotificationManager]. *)
Record IStorage := { storageHandle : nat }.

(** The handle [setInterval] returns: an object, hence never falsy. *)
Record Timeout := { timerId : nat }.

Inductive TimerCallback := tick_performHealthChecks | tick_performMonitoring.

Record Timer := {
  timeout : Timeout;
  callback : TimerCallback;
  period : Z
}.

(** Modelled from the spec: the notification manager is a collaborator
    outside the sources, with [sendToRole(roleId, payload)] and
    [sendToUser(userId, payload)]; each call either resolves or rejects. *)
Record NotificationManager := {
  sendToRole : Z -> NotificationData.t -> Js.Completion unit;
  sendToUser : Z -> NotificationData.t -> Js.Completion unit
}.

Module Event.
Inductive t :=
| log (text : string) (arg : option string)
| error (text : string) (err : Js.Error)
| toRole (roleId : Z) (data : NotificationData.t)
| toUser (userId : Z) (data : NotificationData.t).
End Event.

Record SystemHealthMonitor := {
  storage : IStorage;
  monitoringInterval : option Timeout;
  healthCheckInterval : option Timeout;
  alertRules : list AlertRule.t;
  lastHealthStatus : Js.Map HealthCheckResult.t
}.

Definition MONITORING_INTERVAL : Z := 5 * 60 * 1000.
Definition HEALTH_CHECK_INTERVAL : Z := 2 * 60 * 1000.
Definition PERFORMANCE_RETENTION_DAYS : Z := 30.

(** The host: armed timers, the source of fresh timer handles, the clock,
    and everything the monitor has written or sent so far. *)
Record Host := {
  timers : list Timer;
  nextTimerId : nat;
  now : Z;
  trace : list Event.t
}.

Record State := {
  this : SystemHealthMonitor;
  host : Host
}.

Definition with_monitoringInterval (h : option Timeout) (m : SystemHealthMonitor) :=
  {| storage := storage m;
     monitoringInterval := h;
     healthCheckInterval := healthCheckInterval m;
     alertRules := alertRules m;
     lastHealthStatus := lastHealthStatus m |}.

Definition with_healthCheckInterval (h : option Timeout) (m : SystemHealthMonitor) :=
  {| storage := storage m;
     monitoringInterval := monitoringInterval m;
     healthCheckInterval := h;
     alertRules := alertRules m;
     lastHealthStatus := lastHealthStatus m |}.

Definition with_lastHealthStatus (c : Js.Map HealthCheckResult.t) (m : SystemHealthMonitor) :=
  {| storage := storage m;
     monitoringInterval := monitoringInterval m;
     healthCheckInterval := healthCheckInterval m;
     alertRules := alertRules m;
     lastHealthStatus := c |}.

Definition with_trace (t : list Event.t) (h : Host) :=
  {| timers := timers h; nextTimerId := nextTimerId h; now := now h; trace := t |}.

Definition with_timers (ts : list Timer) (n : nat) (h : Host) :=
  {| timers := ts; nextTimerId := n; now := now h; trace := trace h |}.

(** A method either returns or throws; what it did to the monitor and to
    the host before throwing stays done. *)
Definition M (A : Type) := State -> Js.Completion A * State.

Definition ret {A} (a : A) : M A := fun s => (Js.Normal a, s).

Definition throw {A} (e : Js.Error) : M A := fun s => (Js.Throw e, s).

Definition bind {A B} (m : M A) (k : A -> M B) : M B :=
  fun s =>
    match m s with
    | (Js.Normal a, s') => k a s'
    | (Js.Throw e, s') => (Js.Throw e, s')
    end.

Definition try_catch {A} (body : M A) (handler : Js.Error -> M A) : M A :=
  fun s =>
    match body s with
    | (Js.Normal a, s') => (Js.Normal a, s')
    | (Js.Throw e, s') => handler e s'
    end.

Declare Scope monitor_scope.
Delimit Scope monitor_scope with monitor.
Notation "x <- c ;; k" := (bind c (fun x => k))
  (at level 61, c at next level, right associativity) : monitor_scope.
Notation "c ;; k" := (bind c (fun _ => k))
  (at level 61, right associativity) : monitor_scope.
Local Open Scope monitor_scope.

Definition get_this : M SystemHealthMonitor := fun s => (Js.Normal (this s), s).

Definition set_this (f : SystemHealthMonitor -> SystemHealthMonitor) : M unit :=
  fun s => (Js.Normal tt, {| this := f (this s); host := host s |}).

Definition emit (e : Event.t) : M unit :=
  fun s => (Js.Normal tt,
            {| this := this s;
               host := with_trace (trace (host s) ++ [e])%list (host s) |}).

Definition console_log (text : string) (arg : option string) : M unit :=
  emit (Event.log text arg).

Definition console_error (text : string) (err : Js.Error) : M unit :=
  emit (Event.error text err).

(** [new Date()] *)
Definition Date_now : M Z := fun s => (Js.Normal (now (host s)), s).

Definition setInterval (cb : TimerCallback) (ms : Z) : M Timeout :=
  fun s =>
    let t := {| timerId := nextTimerId (host s) |} in
    (Js.Normal t,
     {| this := this s;
        host := with_timers
                  (timers (host s) ++ [{| timeout := t; callback := cb; period := ms |}])%list
                  (S (nextTimerId (host s))) (host s) |}).

Definition clearInterval (t : Timeout) : M unit :=
  fun s =>
    (Js.Normal tt,
     {| this := this s;
        host := with_timers
                  (filter (fun x => negb (Nat.eqb (timerId (timeout x)) (timerId t)))
                          (timers (host s)))
                  (nextTimerId (host s)) (host s) |}).

(** [await p]: the value of a fulfilled promise, or its reason re-raised. *)
Definition await {A} (p : Js.Completion A) : M A := fun s => (p, s).

(** [for (const x of l) { body }] *)
Fixpoint for_of {A} (l : list A) (body : A -> M unit) : M unit :=
  match l with
  | [] => ret tt
  | x :: l' => body x ;; for_of l' body
  end.

(** ** The methods of [SystemHealthMonitor] *)

Section Monitor.

(** The notification manager module is imported, not defined, by the
    monitor. *)
Variable getNotificationManager : IStorage -> NotificationManager.

Definition startMonitoring : M unit :=
  h <- setInterval tick_performHealthChecks HEALTH_CHECK_INTERVAL ;;
  set_this (with_healthCheckInterval (Some h)) ;;
  m <- setInterval tick_performMonitoring MONITORING_INTERVAL ;;
  set_this (with_monitoringInterval (Some m)) ;;
  console_log "[SystemHealthMonitor] بدأت المراقبة الدورية" None.

Definition stopMonitoring : M unit :=
  self <- get_this ;;
  match healthCheckInterval self with
  | Some h =>
      clearInterval h ;;
      set_this (with_healthCheckInterval None)
  | None => ret tt
  end ;;
  self <- get_this ;;
  match monitoringInterval self with
  | Some m =>
      clearInterval m ;;
      set_this (with_monitoringInterval None)
  | None => ret tt
  end ;;
  console_log "[SystemHealthMonitor] تم إيقاف المراقبة" None.

Definition loadAlertRules : M unit :=
  try_catch
    (console_log "[SystemHealthMonitor] تم تحميل قواعد التحذيرات" None)
    (fun error =>
       console_error "[SystemHealthMonitor] خطأ في تحميل قواعد التحذيرات:" error).

Definition createDefaultHealthChecks : M unit :=
  try_catch
    (console_log "[SystemHealthMonitor] تم إنشاء فحوصات السلامة الافتراضية" None)
    (fun error =>
       console_error "[SystemHealthMonitor] خطأ في إنشاء فحوصات السلامة:" error).

(** [await this.initialize()]: the method run to its end. *)
Definition initialize : M unit :=
  try_catch
    (loadAlertRules ;;
     createDefaultHealthChecks ;;
     startMonitoring ;;
     console_log "[SystemHealthMonitor] تم تشغيل نظام المراقبة بنجاح ✅" None)
    (fun error =>
       console_error "[SystemHealthMonitor] خطأ في تشغيل نظام المراقبة:" error).

(** [this.initialize()] without [await]: the call runs the method up to
    its first [await] and returns.  [loadAlertRules], which awaits
    nothing, is run within the call; what follows it is left to the job
    queue. *)
Definition initialize_until_await : M unit :=
  try_catch
    loadAlertRules
    (fun error =>
       console_error "[SystemHealthMonitor] خطأ في تشغيل نظام المراقبة:" error).

(** The rest of [initialize], which the job queue runs once the code that
    made the call has returned. *)
Definition initialize_after_await : M unit :=
  try_catch
    (createDefaultHealthChecks ;;
     startMonitoring ;;
     console_log "[SystemHealthMonitor] تم تشغيل نظام المراقبة بنجاح ✅" None)
    (fun error =>
       console_error "[SystemHealthMonitor] خطأ في تشغيل نظام المراقبة:" error).

(** The field initialisers of the class. *)
Definition new_fields (storage : IStorage) : SystemHealthMonitor :=
  {| storage := storage;
     monitoringInterval := None;
     healthCheckInterval := None;
     alertRules := [];
     lastHealthStatus := [] |}.

(** [new SystemHealthMonitor(storage)] on a given host.  The constructor
    calls [initialize] and does not await it: when [new] returns, the
    monitor has armed no timer yet, and [initialize_after_await] is still
    to run. *)
Definition constructor (storage : IStorage) (h : Host) : Js.Completion unit * State :=
  (console_log "[SystemHealthMonitor] نظام مراقبة السلامة مُفعل" None ;;
   initialize_until_await)
    {| this := new_fields storage; host := h |}.

Definition getCheckType (checkName : string) : string :=
  if Js.includes checkName "Database" then "database"
  else if Js.includes checkName "Memory" then "memory"
  else if Js.includes checkName "API" then "api"
  else "system".

Definition getSuggestedActions (result : HealthCheckResult.t)
  : list SuggestedAction.t :=
  let actions : list SuggestedAction.t := [] in
  let actions :=
    if Js.includes (checkName result) "Database" then
      (actions ++
      [ {| SuggestedAction.action := "check_database_connections";
           SuggestedAction.priority := 1;
           SuggestedAction.description := Some "فحص اتصالات قاعدة البيانات" |};
        {| SuggestedAction.action := "restart_database_service";
           SuggestedAction.priority := 2;
           SuggestedAction.description := Some "إعادة تشغيل خدمة قاعدة البيانات" |} ])%list
    else actions in
  let actions :=
    if Js.includes (checkName result) "Memory" then
      (actions ++
      [ {| SuggestedAction.action := "check_memory_usage";
           SuggestedAction.priority := 1;
           SuggestedAction.description := Some "مراجعة استخدام الذاكرة" |};
        {| SuggestedAction.action := "restart_application";
           SuggestedAction.priority := 3;
           SuggestedAction.description := Some "إعادة تشغيل التطبيق" |} ])%list
    else actions in
  actions.

Definition icons : Js.Object :=
  [ ("system", Js.str "⚙️");
    ("production", Js.str "🏭");
    ("quality", Js.str "✅");
    ("inventory", Js.str "📦");
    ("maintenance", Js.str "🔧");
    ("security", Js.str "🔒") ].

Definition getAlertIcon (type : string) : Js.Value :=
  Js.or (Js.get icons type) (Js.str "🚨").

(** The payload of a notification; the source writes the same literal
    in both loops, with [recipient_type] 'role' or 'user'. *)
Definition notification (alert : SmartAlert.t)
    (recipient_type : RecipientType.t) (recipient : Z) : NotificationData.t :=
  {| NotificationData.title := SmartAlert.title_ar alert;
     NotificationData.message := SmartAlert.message_ar alert;
     NotificationData.type := SmartAlert.type alert;
     NotificationData.priority :=
       match SmartAlert.severity alert with
       | Severity.critical => Priority.urgent
       | Severity.high => Priority.high
       | _ => Priority.normal
       end;
     NotificationData.recipient_type := recipient_type;
     NotificationData.recipient_id := Js.Z_toString recipient;
     NotificationData.context_type := SmartAlert.type alert;
     NotificationData.context_id := SmartAlert.source_id alert;
     NotificationData.sound :=
       Severity.eqb (SmartAlert.severity alert) Severity.critical;
     NotificationData.icon :=
       getAlertIcon (AlertType.toString (SmartAlert.type alert)) |}.

Definition call_sendToRole (notificationManager : NotificationManager)
    (roleId : Z) (data : NotificationData.t) : M unit :=
  emit (Event.toRole roleId data) ;;
  await (sendToRole notificationManager roleId data).

Definition call_sendToUser (notificationManager : NotificationManager)
    (userId : Z) (data : NotificationData.t) : M unit :=
  emit (Event.toUser userId data) ;;
  await (sendToUser notificationManager userId data).

Definition sendAlertNotification (alert : SmartAlert.t) : M unit :=
  try_catch
    (self <- get_this ;;
     let notificationManager := getNotificationManager (storage self) in
     match SmartAlert.target_roles alert with
     | Some ((_ :: _) as target_roles) =>
         for_of target_roles (fun roleId =>
           call_sendToRole notificationManager roleId
             (notification alert RecipientType.role roleId))
     | _ => ret tt
     end ;;
     match SmartAlert.target_users alert with
     | Some ((_ :: _) as target_users) =>
         for_of target_users (fun userId =>
           call_sendToUser notificationManager userId
             (notification alert RecipientType.user userId))
     | _ => ret tt
     end)
    (fun error =>
       console_error "[SystemHealthMonitor] خطأ في إرسال إشعار التحذير:" error).

Definition alertData (alert : SmartAlert.t) : InsertSystemAlert.t :=
  {| InsertSystemAlert.title := SmartAlert.title alert;
     InsertSystemAlert.title_ar := SmartAlert.title_ar alert;
     InsertSystemAlert.message := SmartAlert.message alert;
     InsertSystemAlert.message_ar := SmartAlert.message_ar alert;
     InsertSystemAlert.type := SmartAlert.type alert;
     InsertSystemAlert.category := SmartAlert.category alert;
     InsertSystemAlert.severity := SmartAlert.severity alert;
     InsertSystemAlert.source := SmartAlert.source alert;
     InsertSystemAlert.source_id := SmartAlert.source_id alert;
     InsertSystemAlert.requires_action := SmartAlert.requires_action alert;
     InsertSystemAlert.context_data := SmartAlert.context_data alert;
     InsertSystemAlert.suggested_actions := SmartAlert.suggested_actions alert;
     InsertSystemAlert.target_users := SmartAlert.target_users alert;
     InsertSystemAlert.target_roles := SmartAlert.target_roles alert;
     InsertSystemAlert.notification_sent := false |}.

(** The row is built and the creation is logged; the write to storage is
    still to be added in the source, so nothing else happens before the
    notification is sent. *)
Definition createSystemAlert (alert : SmartAlert.t) : M unit :=
  try_catch
    (let alertData := alertData alert in
     console_log "[SystemHealthMonitor] تم إنشاء تحذير النظام:"
                 (Some (SmartAlert.title_ar alert)) ;;
     sendAlertNotification alert)
    (fun error =>
       console_error "[SystemHealthMonitor] خطأ في إنشاء تحذير النظام:" error).

Definition healthAlert (result : HealthCheckResult.t) : SmartAlert.t :=
  {| SmartAlert.id := None;
     SmartAlert.title := "System Health Issue: " ++ checkName result;
     SmartAlert.title_ar := "مشكلة في سلامة النظام: " ++ checkName_ar result;
     SmartAlert.message :=
       Js.or_string (error result)
         (checkName result ++ " is in " ++ Status.toString (status result) ++ " state");
     SmartAlert.message_ar :=
       Js.or_string (error result)
         (checkName_ar result ++ " في حالة " ++ Status.toString (status result));
     SmartAlert.type := AlertType.system;
     SmartAlert.category :=
       if Status.eqb (status result) Status.critical
       then Category.critical else Category.warning;
     SmartAlert.severity :=
       if Status.eqb (status result) Status.critical
       then Severity.critical else Severity.medium;
     SmartAlert.source := "system_health_monitor";
     SmartAlert.source_id := Some (checkName result);
     SmartAlert.context_data := Some (details result);
     SmartAlert.requires_action := Status.eqb (status result) Status.critical;
     SmartAlert.suggested_actions := Some (getSuggestedActions result);
     SmartAlert.target_users := None;
     SmartAlert.target_roles := Some [1; 2] |}.

Definition createHealthAlert (result : HealthCheckResult.t) : M unit :=
  try_catch
    (let alert := healthAlert result in
     createSystemAlert alert)
    (fun error =>
       console_error "[SystemHealthMonitor] خطأ في إنشاء تحذير السلامة:" error).

Definition healthCheckData (result : HealthCheckResult.t) (last_check_time : Z)
  : InsertSystemHealthCheck.t :=
  {| InsertSystemHealthCheck.check_name := checkName result;
     InsertSystemHealthCheck.check_name_ar := checkName_ar result;
     InsertSystemHealthCheck.check_type := getCheckType (checkName result);
     InsertSystemHealthCheck.status := status result;
     InsertSystemHealthCheck.last_check_time := last_check_time;
     InsertSystemHealthCheck.check_duration_ms := duration result;
     InsertSystemHealthCheck.check_details := details result;
     InsertSystemHealthCheck.last_error := error result |}.

(** The health-check row is built but not yet written anywhere; an alert
    is raised for a bad status; the result is cached under its name. *)
Definition processHealthCheckResult (result : HealthCheckResult.t) : M unit :=
  try_catch
    (last_check_time <- Date_now ;;
     let healthCheckData := healthCheckData result last_check_time in
     (if Status.eqb (status result) Status.critical
         || Status.eqb (status result) Status.warning
      then createHealthAlert result
      else ret tt) ;;
     set_this (fun self =>
       with_lastHealthStatus
         (Js.Map_set (lastHealthStatus self) (checkName result) result) self))
    (fun error =>
       console_error "[SystemHealthMonitor] خطأ في معالجة نتيجة الفحص:" error).

(** What the four probes of one cycle observe. *)
Record HealthCheckRuns := {
  databaseConnection : Run (list Js.Object);
  databasePerformance : Run (list Js.Object * list Js.Object);
  systemMemory : Run MemoryUsage;
  systemHealth : Run ProcessInfo
}.

(** [await Promise.allSettled(checks)]: every promise settles, and the
    settled states come back in the order of [checks]. *)
Definition Promise_allSettled {A} (checks : list (Promise A))
  : M (list (Js.PromiseSettledResult A)) :=
  ret checks.

(** The loop over the settled results. *)
Definition processSettledResults
    (results : list (Js.PromiseSettledResult HealthCheckResult.t)) : M unit :=
  for_of results (fun result =>
    match result with
    | Js.fulfilled value => processHealthCheckResult value
    | Js.rejected reason =>
        console_error "[SystemHealthMonitor] فشل في فحص السلامة:" reason
    end).

Definition startChecks (runs : HealthCheckRuns) : list (Promise HealthCheckResult.t) :=
  [ checkDatabaseConnection (databaseConnection runs);
    checkDatabasePerformance (databasePerformance runs);
    checkSystemMemory (systemMemory runs);
    checkSystemHealth (systemHealth runs) ].

Definition performHealthChecks (runs : HealthCheckRuns) : M unit :=
  try_catch
    (let checks := startChecks runs in
     results <- Promise_allSettled checks ;;
     processSettledResults results)
    (fun error =>
       console_error "[SystemHealthMonitor] خطأ في تنفيذ فحوصات السلامة:" error).

Definition shutdown : M unit :=
  try_catch
    (stopMonitoring ;;
     console_log "[SystemHealthMonitor] تم إيقاف نظام المراقبة بأمان" None)
    (fun error =>
       console_error "[SystemHealthMonitor] خطأ في إيقاف نظام المراقبة:" error).

Record SystemStatus := {
  monitoring : bool;
  healthChecks : bool;
  lastHealthChecks : list HealthCheckResult.t;
  totalAlertRules : nat
}.

(** [x !== null] on a timer handle *)
Definition not_null {A} (x : option A) : bool :=
  match x with Some _ => true | None => false end.

Definition getSystemStatus : M SystemStatus :=
  self <- get_this ;;
  let status :=
    {| monitoring := not_null (monitoringInterval self);
       healthChecks := not_null (healthCheckInterval self);
       lastHealthChecks := Js.Map_values (lastHealthStatus self);
       totalAlertRules := List.length (alertRules self) |} in
  ret status.

End Monitor.

(** ** The general-monitoring cycle *)

(** [process.cpuUsage()] *)
Module CpuUsage.
Record t := { user : float; system : float }.
End CpuUsage.

(** What [monitorPerformance] reads from the process; the observation of
    a run is this pair, or the exception of the first call that throws. *)
Record PerformanceSample := {
  memoryUsage : MemoryUsage;
  cpuUsage : CpuUsage.t
}.

(** The [data] argument of the production and inventory alerts, as the
    two call sites build it. *)
Module AlertData.
Record t := { count : Z; message : string }.

Definition toObject (data : t) : Js.Object :=
  [("count", Js.int (count data)); ("message", Js.str (message data))].
End AlertData.

Section Monitoring.

Variable getNotificationManager : IStorage -> NotificationManager.

(** The list of metrics is built from the sample and not used: the write
    to storage is still to be added in the source. *)
Definition monitorPerformance (sample : Js.Completion PerformanceSample) : M unit :=
  try_catch
    (sampled <- await sample ;;
     console_log "[SystemHealthMonitor] تم رصد مؤشرات الأداء" None)
    (fun error =>
       console_error "[SystemHealthMonitor] خطأ في مراقبة الأداء:" error).

Definition checkOverdueOrders : M Z :=
  try_catch
    (console_log "[SystemHealthMonitor] فحص الطلبات المتأخرة" None ;;
     ret 0)
    (fun error =>
       console_error "[SystemHealthMonitor] خطأ في فحص الطلبات المتأخرة:" error ;;
       ret 0).

Definition checkMachineStatus : M Z :=
  try_catch
    (console_log "[SystemHealthMonitor] فحص حالة المكائن" None ;;
     ret 0)
    (fun error =>
       console_error "[SystemHealthMonitor] خطأ في فحص حالة المكائن:" error ;;
       ret 0).

Definition checkLowStockItems : M Z :=
  try_catch
    (console_log "[SystemHealthMonitor] فحص المواد قليلة المخزون" None ;;
     ret 0)
    (fun error =>
       console_error "[SystemHealthMonitor] خطأ في فحص المواد قليلة المخزون:" error ;;
       ret 0).

Definition productionAlert (type : string) (data : AlertData.t) : SmartAlert.t :=
  {| SmartAlert.id := None;
     SmartAlert.title := "Production Alert: " ++ type;
     SmartAlert.title_ar := "تحذير إنتاج: " ++ type;
     SmartAlert.message := AlertData.message data;
     SmartAlert.message_ar := AlertData.message data;
     SmartAlert.type := AlertType.production;
     SmartAlert.category := Category.warning;
     SmartAlert.severity := Severity.medium;
     SmartAlert.source := "production_monitor";
     SmartAlert.source_id := Some type;
     SmartAlert.context_data := Some (AlertData.toObject data);
     SmartAlert.suggested_actions := None;
     SmartAlert.target_users := None;
     SmartAlert.target_roles := Some [2; 3];
     SmartAlert.requires_action := true |}.

Definition createProductionAlert (type : string) (data : AlertData.t) : M unit :=
  let alert := productionAlert type data in
  createSystemAlert getNotificationManager alert.

Definition inventoryAlert (type : string) (data : AlertData.t) : SmartAlert.t :=
  {| SmartAlert.id := None;
     SmartAlert.title := "Inventory Alert: " ++ type;
     SmartAlert.title_ar := "تحذير مخزون: " ++ type;
     SmartAlert.message := AlertData.message data;
     SmartAlert.message_ar := AlertData.message data;
     SmartAlert.type := AlertType.inventory;
     SmartAlert.category := Category.warning;
     SmartAlert.severity := Severity.medium;
     SmartAlert.source := "inventory_monitor";
     SmartAlert.source_id := Some type;
     SmartAlert.context_data := Some (AlertData.toObject data);
     SmartAlert.suggested_actions := None;
     SmartAlert.target_users := None;
     SmartAlert.target_roles := Some [2; 4];
     SmartAlert.requires_action := true |}.

Definition createInventoryAlert (type : string) (data : AlertData.t) : M unit :=
  let alert := inventoryAlert type data in
  createSystemAlert getNotificationManager alert.

Definition monitorProduction : M unit :=
  try_catch
    (overdueOrders <- checkOverdueOrders ;;
     brokenMachines <- checkMachineStatus ;;
     if 0 <? overdueOrders then
       createProductionAlert "overdue_orders"
         {| AlertData.count := overdueOrders;
            AlertData.message :=
              "يوجد " ++ Js.Z_toString overdueOrders ++ " طلب متأخر عن موعد التسليم" |}
     else ret tt)
    (fun error =>
       console_error "[SystemHealthMonitor] خطأ في مراقبة الإنتاج:" error).

Definition monitorInventory : M unit :=
  try_catch
    (lowStockItems <- checkLowStockItems ;;
     if 0 <? lowStockItems then
       createInventoryAlert "low_stock"
         {| AlertData.count := lowStockItems;
            AlertData.message :=
              "يوجد " ++ Js.Z_toString lowStockItems ++ " صنف قليل المخزون" |}
     else ret tt)
    (fun error =>
       console_error "[SystemHealthMonitor] خطأ في مراقبة المخزون:" error).

(** The cut-off date is computed and not used: the deletion is still to
    be added in the source. *)
Definition cleanupOldData : M unit :=
  try_catch
    (console_log "[SystemHealthMonitor] تم تنظيف البيانات القديمة" None)
    (fun error =>
       console_error "[SystemHealthMonitor] خطأ في تنظيف البيانات القديمة:" error).

Definition performMonitoring (sample : Js.Completion PerformanceSample) : M unit :=
  try_catch
    (monitorPerformance sample ;;
     monitorProduction ;;
     monitorInventory ;;
     cleanupOldData)
    (fun error =>
       console_error "[SystemHealthMonitor] خطأ في المراقبة العامة:" error).

(** One firing of a timer, with what the callback observes of the host:
    the two callbacks [startMonitoring] registers. *)
Inductive Tick :=
| healthCheckTick (runs : HealthCheckRuns)
| monitoringTick (sample : Js.Completion PerformanceSample).

Definition fire (tick : Tick) : M unit :=
  match tick with
  | healthCheckTick runs => performHealthChecks getNotificationManager runs
  | monitoringTick sample => performMonitoring sample
  end.

End Monitoring.

(** ** The shared instance *)

(** The module-level variable [systemHealthMonitor] together with the
    host the instance lives on. *)
Record Process := {
  systemHealthMonitor : option SystemHealthMonitor;
  processHost : Host
}.

(** [getSystemHealthMonitor(storage)]: the instance it returns and the
    process afterwards.  The instance is returned as [new] leaves it,
    with [initialize] still to be resumed. *)
Definition getSystemHealthMonitor (storage : IStorage) (p : Process)
  : SystemHealthMonitor * Process :=
  match systemHealthMonitor p with
  | Some monitor => (monitor, p)
  | None =>
      let constructed := snd (constructor storage (processHost p)) in
      (this constructed,
       {| systemHealthMonitor := Some (this constructed);
          processHost := host constructed |})
  end.

(** A method run on the shared instance.  The module variable holds the
    object itself, so what the method does to the fields is seen by every
    holder of the instance. *)
Definition onInstance {A} (method : M A) (p : Process)
  : option (Js.Completion A) * Process :=
  match systemHealthMonitor p with
  | Some monitor =>
      let (completion, s) := method {| this := monitor; host := processHost p |} in
      (Some completion,
       {| systemHealthMonitor := Some (this s); processHost := host s |})
  | None => (None, p)
  end.

(** ** The registered health checks *)

Module Thresholds.
Record t := { warning : Z; critical : Z; unit : string }.
End Thresholds.

(** The fields the table of default checks sets. *)
Module DefaultHealthCheck.
Record t := {
  check_name : string;
  check_name_ar : string;
  check_type : string;
  thresholds : Thresholds.t;
  is_critical : bool
}.
End DefaultHealthCheck.

(** The table [createDefaultHealthChecks] builds. *)
Definition defaultChecks : list DefaultHealthCheck.t :=
  [ {| DefaultHealthCheck.check_name := "Database Connection";
       DefaultHealthCheck.check_name_ar := "اتصال قاعدة البيانات";
       DefaultHealthCheck.check_type := "database";
       DefaultHealthCheck.thresholds :=
         {| Thresholds.warning := 1000; Thresholds.critical := 5000;
            Thresholds.unit := "ms" |};
       DefaultHealthCheck.is_critical := true |};
    {| DefaultHealthCheck.check_name := "Database Performance";
       DefaultHealthCheck.check_name_ar := "أداء قاعدة البيانات";
       DefaultHealthCheck.check_type := "database";
       DefaultHealthCheck.thresholds :=
         {| Thresholds.warning := 500; Thresholds.critical := 2000;
            Thresholds.unit := "ms" |};
       DefaultHealthCheck.is_critical := false |};
    {| DefaultHealthCheck.check_name := "Memory Usage";
       DefaultHealthCheck.check_name_ar := "استخدام الذاكرة";
       DefaultHealthCheck.check_type := "memory";
       DefaultHealthCheck.thresholds :=
         {| Thresholds.warning := 80; Thresholds.critical := 95;
            Thresholds.unit := "percent" |};
       DefaultHealthCheck.is_critical := false |};
    {| DefaultHealthCheck.check_name := "System Health API";
       DefaultHealthCheck.check_name_ar := "API سلامة النظام";
       DefaultHealthCheck.check_type := "api";
       DefaultHealthCheck.thresholds :=
         {| Thresholds.warning := 1000; Thresholds.critical := 3000;
            Thresholds.unit := "ms" |};
       DefaultHealthCheck.is_critical := false |} ].

(** ** Reading the trace *)

(** The state after further events have been written to the trace. *)
Definition emitted (s : State) (events : list Event.t) : State :=
  {| this := this s;
     host := with_trace (trace (host s) ++ events)%list (host s) |}.

(** The state after [result] has been stored in the last-known-status
    cache. *)
Definition cached (result : HealthCheckResult.t) (s : State) : State :=
  {| this := with_lastHealthStatus
               (Js.Map_set (lastHealthStatus (this s)) (checkName result) result)
               (this s);
     host := host s |}.

Definition ids (target : option (list Z)) : list Z :=
  match target with
  | Some l => l
  | None => []
  end.

(** The calls [sendAlertNotification] sets out to make for an alert: one
    per role, then one per user. *)
Definition dispatchPlan (alert : SmartAlert.t) : list Event.t :=
  (map (fun roleId => Event.toRole roleId (notification alert RecipientType.role roleId))
       (ids (SmartAlert.target_roles alert))
   ++
   map (fun userId => Event.toUser userId (notification alert RecipientType.user userId))
       (ids (SmartAlert.target_users alert)))%list.

(** How the notification manager answers a call. *)
Definition outcome (nm : NotificationManager) (call : Event.t) : Js.Completion unit :=
  match call with
  | Event.toRole roleId data => sendToRole nm roleId data
  | Event.toUser userId data => sendToUser nm userId data
  | _ => Js.Normal tt
  end.

(** The calls really made out of a plan: all of them up to and including
    the first one that is rejected, together with that rejection. *)
Fixpoint attempted (nm : NotificationManager) (plan : list Event.t)
  : list Event.t * option Js.Error :=
  match plan with
  | [] => ([], None)
  | call :: plan' =>
      match outcome nm call with
      | Js.Normal _ =>
          let (made, failure) := attempted nm plan' in (call :: made, failure)
      | Js.Throw e => ([call], Some e)
      end
  end.

Definition notificationErrorLog (failure : option Js.Error) : list Event.t :=
  match failure with
  | Some e => [Event.error "[SystemHealthMonitor] خطأ في إرسال إشعار التحذير:" e]
  | None => []
  end.

(** Everything [createSystemAlert] writes for an alert. *)
Definition alertEvents (nm : NotificationManager) (alert : SmartAlert.t) : list Event.t :=
  (Event.log "[SystemHealthMonitor] تم إنشاء تحذير النظام:"
             (Some (SmartAlert.title_ar alert))
   :: fst (attempted nm (dispatchPlan alert))
   ++ notificationErrorLog (snd (attempted nm (dispatchPlan alert))))%list.

Definition isBad (result : HealthCheckResult.t) : bool :=
  Status.eqb (status result) Status.critical
  || Status.eqb (status result) Status.warning.

Definition isAlertCreated (e : Event.t) : bool :=
  match e with
  | Event.log text _ => String.eqb text "[SystemHealthMonitor] تم إنشاء تحذير النظام:"
  | _ => false
  end.

Definition isDispatch (e : Event.t) : bool :=
  match e with
  | Event.toRole _ _ | Event.toUser _ _ => true
  | _ => false
  end.

Definition isToRole (roleId : Z) (e : Event.t) : bool :=
  match e with
  | Event.toRole r _ => r =? roleId
  | _ => false
  end.


Definition count (p : Event.t -> bool) (s : State) : nat :=
  List.length (filter p (trace (host s))).

Definition alertsCreated : State -> nat := count isAlertCreated.

Definition dispatches (s : State) : list Event.t :=
  filter isDispatch (trace (host s)).

Definition isFulfilledBad (r : Js.PromiseSettledResult HealthCheckResult.t) : bool :=
  match r with
  | Js.fulfilled value => isBad value
  | Js.rejected _ => false
  end.


(** How a loop of calls ends. *)
Definition raised (failure : option Js.Error) : Js.Completion unit :=
  match failure with
  | Some e => Js.Throw e
  | None => Js.Normal tt
  end.

(** Everything the loop of [performHealthChecks] writes for one settled
    result. *)
Definition resultEvents (nm : NotificationManager)
    (r : Js.PromiseSettledResult HealthCheckResult.t) : list Event.t :=
  match r with
  | Js.fulfilled value =>
      if isBad value then alertEvents nm (healthAlert value) else []
  | Js.rejected reason =>
      [Event.error "[SystemHealthMonitor] فشل في فحص السلامة:" reason]
  end.

(** The calls made for one settled result. *)
Definition resultDispatches (nm : NotificationManager)
    (r : Js.PromiseSettledResult HealthCheckResult.t) : list Event.t :=
  match r with
  | Js.fulfilled value =>
      if isBad value
      then fst (attempted nm (dispatchPlan (healthAlert value)))
      else []
  | Js.rejected _ => []
  end.

(** The cache after a list of settled results: every fulfilled one is
    stored under its name, in order. *)
Fixpoint cacheAll (results : list (Js.PromiseSettledResult HealthCheckResult.t))
    (cache : Js.Map HealthCheckResult.t) : Js.Map HealthCheckResult.t :=
  match results with
  | [] => cache
  | Js.fulfilled value :: results' =>
      cacheAll results' (Js.Map_set cache (checkName value) value)
  | Js.rejected _ :: results' => cacheAll results' cache
  end.

(** ** The statements of the specification that the code does not meet *)

(** "One recipient's failure must not block others": every planned call
    is made, whatever the notification manager answers. *)
Definition every_recipient_attempted (gnm : IStorage -> NotificationManager)
    (alert : SmartAlert.t) (s : State) : Prop :=
  forall call, In call (dispatchPlan alert) ->
    In call (dispatches (snd (sendAlertNotification gnm alert s))).

(** "Exactly one notification dispatch attempt per entry in target_roles":
    processing a bad result adds one call for each role of its alert. *)
Definition one_dispatch_per_role (gnm : IStorage -> NotificationManager)
    (result : HealthCheckResult.t) (s : State) : Prop :=
  isBad result = true ->
  forall roleId, In roleId (ids (SmartAlert.target_roles (healthAlert result))) ->
    count (isToRole roleId) (snd (processHealthCheckResult gnm result s))
    = (count (isToRole roleId) s + 1)%nat.




(** The state in which the loop of [performHealthChecks] awaits at the
    start of its iteration number [k]: the first [k] settled results of
    the cycle have been processed, the others not yet. *)
Definition midCycle (gnm : IStorage -> NotificationManager)
    (runs : HealthCheckRuns) (k : nat) (s : State) : State :=
  snd (processSettledResults gnm (firstn k (startChecks runs)) s).

(** Modelled from the spec: "called before the first cycle completes [it]
    must report an empty last-known-status collection": at every point of
    the first cycle at which a result is still to be processed. *)
Definition nothing_cached_until_cycle_completes
    (gnm : IStorage -> NotificationManager) (runs : HealthCheckRuns) (s : State) : Prop :=
  forall k, (k < List.length (startChecks runs))%nat ->
    forall status,
      fst (getSystemStatus (midCycle gnm runs k s)) = Js.Normal status ->
      lastHealthChecks status = [].

(** The line [stopMonitoring] writes to the console. *)
Definition stoppedLog : Event.t :=
  Event.log "[SystemHealthMonitor] تم إيقاف المراقبة" None.

(** ** The memory thresholds as binary64 values *)

Definition sf95 : spec_float := S754_finite false 6685030696878080 (-46).
Definition sf80 : spec_float := S754_finite false 5629499534213120 (-46).

(** ** Sample inputs *)

Definition storage0 : IStorage := {| storageHandle := 0 |}.

Definition host0 : Host :=
  {| timers := []; nextTimerId := 0; now := 0; trace := [] |}.

(** A freshly constructed monitor, before [initialize] has run. *)
Definition fresh : State := {| this := new_fields storage0; host := host0 |}.

(** A notification manager that delivers everything. *)
Definition delivering : IStorage -> NotificationManager :=
  fun _ => {| sendToRole := fun _ _ => Js.Normal tt;
              sendToUser := fun _ _ => Js.Normal tt |}.

(** A notification manager whose delivery to role 1 is rejected. *)
Definition role1_offline : IStorage -> NotificationManager :=
  fun _ => {| sendToRole := fun roleId _ =>
                if roleId =? 1 then Js.Throw {| Js.message := "offline" |}
                else Js.Normal tt;
              sendToUser := fun _ _ => Js.Normal tt |}.

(** A database round trip of seven seconds. *)
Definition slowDatabase : Run (list Js.Object) :=
  {| startTime := 0; awaited := Js.Normal []; endTime := 7000 |}.

Definition slowDatabaseResult : HealthCheckResult.t :=
  {| checkName := "Database Connection";
     checkName_ar := "اتصال قاعدة البيانات";
     status := Status.critical;
     duration := 7000;
     details := [("responseTime", Js.int 7000); ("connected", Js.boolean true)];
     error := None |}.

(** Heap sampling that throws. *)
Definition failedSampling : Run MemoryUsage :=
  {| startTime := 0;
     awaited := Js.Throw {| Js.message := "memoryUsage failed" |};
     endTime := 1 |}.

Definition failedSamplingResult : HealthCheckResult.t :=
  {| checkName := "Memory Usage";
     checkName_ar := "استخدام الذاكرة";
     status := Status.unknown;
     duration := 1;
     details := [];
     error := Some "memoryUsage failed" |}.


(** A cycle in which the connection query throws, the performance queries
    take 1500 ms, heap sampling throws, and the liveness probe is fine. *)
Definition troubledRuns : HealthCheckRuns :=
  {| databaseConnection :=
       {| startTime := 0;
          awaited := Js.Throw {| Js.message := "connection refused" |};
          endTime := 30 |};
     databasePerformance :=
       {| startTime := 0; awaited := Js.Normal ([], []); endTime := 1500 |};
     systemMemory := failedSampling;
     systemHealth :=
       {| startTime := 0;
          awaited := Js.Normal {| uptime := 7200%float;
                                  version := "v20.11.0";
                                  platform := "linux";
                                  pid := 4242 |};
          endTime := 0 |} |}.

(** A monitor constructed on an idle host, as [new] returns it. *)
Definition constructed : State := snd (constructor storage0 host0).

(** The same monitor once [initialize] has run to its end: started. *)
Definition started : State := snd (initialize_after_await constructed).

(** ** Reading the general-monitoring cycle and the cache *)

(** The four console lines the stubbed checks and the clean-up write. *)
Definition stubLines : list Event.t :=
  [ Event.log "[SystemHealthMonitor] فحص الطلبات المتأخرة" None;
    Event.log "[SystemHealthMonitor] فحص حالة المكائن" None;
    Event.log "[SystemHealthMonitor] فحص المواد قليلة المخزون" None;
    Event.log "[SystemHealthMonitor] تم تنظيف البيانات القديمة" None ].

(** Everything one general-monitoring cycle writes. *)
Definition monitoringEvents (sample : Js.Completion PerformanceSample) : list Event.t :=
  (match sample with
   | Js.Normal _ => Event.log "[SystemHealthMonitor] تم رصد مؤشرات الأداء" None
   | Js.Throw e => Event.error "[SystemHealthMonitor] خطأ في مراقبة الأداء:" e
   end) :: stubLines.

(** A run of timer firings, one after the other. *)
Definition fireAll (gnm : IStorage -> NotificationManager) (ticks : list Tick) : M unit :=
  for_of ticks (fire gnm).


(** [s'] differs from [s] at most by its cache and by further events at
    the end of the trace. *)
Definition extends (s s' : State) : Prop :=
  exists cache events,
    s' = {| this := with_lastHealthStatus cache (this s);
            host := with_trace (trace (host s) ++ events)%list (host s) |}.

Definition keys {V} (m : Js.Map V) : list string := map fst m.

Definition fulfilledValues {A} (l : list (Js.PromiseSettledResult A)) : list A :=
  flat_map (fun r => match r with
                     | Js.fulfilled value => [value]
                     | Js.rejected _ => []
                     end) l.

(** The results of the four probes of a cycle, in the order of the
    probes. *)
Definition cycleResults (runs : HealthCheckRuns) : list HealthCheckResult.t :=
  fulfilledValues (startChecks runs).

Definition probeNames : list string :=
  [ "Database Connection"; "Database Performance"; "Memory Usage";
    "System Health API" ].

(** Every armed timer has a handle older than the next one to be issued. *)
Definition handlesFresh (h : Host) : Prop :=
  Forall (fun t => (timerId (timeout t) < nextTimerId h)%nat) (timers h).

(** Classification of a duration against a pair of thresholds. *)
Definition classifyBy (th : Thresholds.t) (d : Z) : Status.t :=
  if Thresholds.critical th <? d then Status.critical
  else if Thresholds.warning th <? d then Status.warning
  else Status.healthy.

(** How bad a status is. *)
Definition rank (s : Status.t) : nat :=
  match s with
  | Status.healthy => 0
  | Status.warning => 1
  | Status.critical => 2
  | Status.unknown => 3
  end.

Definition statusOf (p : Promise HealthCheckResult.t) : option Status.t :=
  match p with
  | Js.fulfilled r => Some (status r)
  | Js.rejected _ => None
  end.

(** The armed timers once the timer of a handle, if any, is cleared. *)
Definition disarm (handle : option Timeout) (ts : list Timer) : list Timer :=
  match handle with
  | Some t => filter (fun x => negb (Nat.eqb (timerId (timeout x)) (timerId t))) ts
  | None => ts
  end.

Definition shutdownLog : Event.t :=
  Event.log "[SystemHealthMonitor] تم إيقاف نظام المراقبة بأمان" None.

(** The thresholds the table of default checks registers for a name. *)
Definition registeredThresholds (name : string) : option Thresholds.t :=
  match find (fun d => String.eqb (DefaultHealthCheck.check_name d) name) defaultChecks with
  | Some d => Some (DefaultHealthCheck.thresholds d)
  | None => None
  end.

(** An integer literal as a binary64 number. *)
Definition numberOfZ (z : Z) : float := PrimFloat.of_uint63 (Uint63Axioms.of_Z z).

(** Classification of a percentage against a pair of thresholds. *)
Definition classifyNumberBy (th : Thresholds.t) (p : float) : Status.t :=
  if (numberOfZ (Thresholds.critical th) <? p)%float then Status.critical
  else if (numberOfZ (Thresholds.warning th) <? p)%float then Status.warning
  else Status.healthy.

(** Reading a decimal identifier back. *)
Definition parseId (s : string) : option Z :=
  option_map Z.of_int (NilZero.int_of_string s).

(** [sub] occurs somewhere in [s]. *)
Definition contains (s sub : string) : Prop :=
  exists before after, s = before ++ sub ++ after.

(** Everything one timer firing writes. *)
Definition tickEvents (nm : NotificationManager) (tick : Tick) : list Event.t :=
  match tick with
  | healthCheckTick runs => flat_map (resultEvents nm) (startChecks runs)
  | monitoringTick sample => monitoringEvents sample
  end.

(** An event that is a console line, or a call to role 1 or role 2. *)
Definition lineOrAdminCall (e : Event.t) : Prop :=
  match e with
  | Event.toRole roleId _ => roleId = 1 \/ roleId = 2
  | Event.toUser _ _ => False
  | _ => True
  end.

(** ** Two helpers of the assistant service

    [AdvancedOpenAIService] shares the source file with the monitor; its
    two string helpers that call no collaborator are embedded here. *)

Module AdvancedOpenAIService.

Definition dataKeywords : list string :=
  [ "حالة الطلب"; "رقم الطلب"; "أمر التشغيل"; "الرول"; "المكينة";
    "الإنتاج"; "المستودع"; "الجودة"; "الصيانة"; "إحصائيات" ].

(** [dataKeywords.some((keyword) => message.includes(keyword))] *)
Definition needsDataQuery (message : string) : bool :=
  existsb (fun keyword => Js.includes message keyword) dataKeywords.

Definition statusMap : Js.Object :=
  [ ("pending", Js.str "في الانتظار");
    ("for_production", Js.str "للإنتاج");
    ("in_progress", Js.str "قيد التنفيذ");
    ("completed", Js.str "مكتمل");
    ("delivered", Js.str "مُسلم");
    ("active", Js.str "نشط");
    ("maintenance", Js.str "صيانة");
    ("down", Js.str "متوقف");
    ("for_printing", Js.str "للطباعة");
    ("for_cutting", Js.str "للقطع");
    ("done", Js.str "منجز") ].

(** [statusMap[status] || status] *)
Definition translateStatus (status : string) : Js.Value :=
  Js.or (Js.get statusMap status) (Js.str status).

End AdvancedOpenAIService.

(** ** Facts about the effects *)

Lemma emitted_nil (s : State) : emitted s [] = s.
Proof.
  destruct s as [m [ts n c tr]]. unfold emitted, with_trace; simpl.
  now rewrite app_nil_r.
Qed.

Lemma emitted_emitted (s : State) (a b : list Event.t) :
  emitted (emitted s a) b = emitted s (a ++ b).
Proof.
  unfold emitted, with_trace; simpl. now rewrite app_assoc.
Qed.

Lemma emit_emitted (e : Event.t) (s : State) :
  emit e s = (Js.Normal tt, emitted s [e]).
Proof. reflexivity. Qed.

Lemma attempted_prefix (nm : NotificationManager) (plan : list Event.t) :
  exists rest, plan = (fst (attempted nm plan) ++ rest)%list.
Proof.
  induction plan as [|call plan IH]; simpl.
  - now exists [].
  - destruct (outcome nm call).
    + destruct IH as [rest IH]. destruct (attempted nm plan) as [made failure].
      exists rest. simpl in *. now rewrite <- IH.
    + now exists plan.
Qed.

Lemma attempted_all (nm : NotificationManager) (plan : list Event.t) :
  (forall call, In call plan -> outcome nm call = Js.Normal tt) ->
  attempted nm plan = (plan, None).
Proof.
  induction plan as [|call plan IH]; simpl; intros H; [reflexivity|].
  rewrite (H call (or_introl eq_refl)).
  rewrite IH by (intros; apply H; now right). reflexivity.
Qed.

Lemma attempted_app (nm : NotificationManager) (a b : list Event.t) :
  attempted nm (a ++ b) =
  match attempted nm a with
  | (made, Some e) => (made, Some e)
  | (made, None) => ((made ++ fst (attempted nm b))%list, snd (attempted nm b))
  end.
Proof.
  induction a as [|call a IH]; simpl.
  - now destruct (attempted nm b).
  - destruct (outcome nm call); [|reflexivity].
    rewrite IH. destruct (attempted nm a) as [made [e|]]; reflexivity.
Qed.

Lemma for_of_sendToRole (nm : NotificationManager) (f : Z -> NotificationData.t)
    (l : list Z) (s : State) :
  for_of l (fun roleId => call_sendToRole nm roleId (f roleId)) s =
  let plan := map (fun roleId => Event.toRole roleId (f roleId)) l in
  (raised (snd (attempted nm plan)), emitted s (fst (attempted nm plan))).
Proof.
  revert s. induction l as [|roleId l IH]; intros s; simpl.
  - now rewrite emitted_nil.
  - unfold bind at 1. unfold call_sendToRole at 1. unfold bind at 1.
    rewrite emit_emitted. unfold await.
    destruct (sendToRole nm roleId (f roleId)) as [[]|e]; simpl.
    + rewrite IH. simpl.
      destruct (attempted nm (map (fun r => Event.toRole r (f r)) l)) as [made failure].
      simpl. now rewrite emitted_emitted.
    + reflexivity.
Qed.

Lemma for_of_sendToUser (nm : NotificationManager) (f : Z -> NotificationData.t)
    (l : list Z) (s : State) :
  for_of l (fun userId => call_sendToUser nm userId (f userId)) s =
  let plan := map (fun userId => Event.toUser userId (f userId)) l in
  (raised (snd (attempted nm plan)), emitted s (fst (attempted nm plan))).
Proof.
  revert s. induction l as [|userId l IH]; intros s; simpl.
  - now rewrite emitted_nil.
  - unfold bind at 1. unfold call_sendToUser at 1. unfold bind at 1.
    rewrite emit_emitted. unfold await.
    destruct (sendToUser nm userId (f userId)) as [[]|e]; simpl.
    + rewrite IH. simpl.
      destruct (attempted nm (map (fun u => Event.toUser u (f u)) l)) as [made failure].
      simpl. now rewrite emitted_emitted.
    + reflexivity.
Qed.

(** The guard [target && target.length > 0] changes nothing: the loop over
    an absent or empty list makes no call. *)
Lemma guarded_loop (target : option (list Z)) (body : Z -> M unit) (s : State) :
  match target with
  | Some ((_ :: _) as l) => for_of l body
  | _ => ret tt
  end s = for_of (ids target) body s.
Proof. destruct target as [[|x l]|]; reflexivity. Qed.

(** What [sendAlertNotification] does, in full. *)
Lemma sendAlertNotification_run (gnm : IStorage -> NotificationManager)
    (alert : SmartAlert.t) (s : State) :
  let nm := gnm (storage (this s)) in
  sendAlertNotification gnm alert s =
  (Js.Normal tt,
   emitted s (fst (attempted nm (dispatchPlan alert))
              ++ notificationErrorLog (snd (attempted nm (dispatchPlan alert))))).
Proof.
  intros nm. unfold sendAlertNotification, try_catch.
  unfold bind at 1. unfold get_this. unfold bind at 1.
  rewrite guarded_loop, for_of_sendToRole. cbv zeta.
  unfold dispatchPlan. rewrite attempted_app. fold nm.
  destruct (attempted nm (map _ (ids (SmartAlert.target_roles alert))))
    as [made [e|]]; simpl.
  - unfold console_error. rewrite emit_emitted, emitted_emitted. reflexivity.
  - rewrite guarded_loop, for_of_sendToUser. cbv zeta. simpl.
    destruct (attempted nm (map _ (ids (SmartAlert.target_users alert))))
      as [made' [e|]]; simpl.
    + unfold console_error. rewrite emit_emitted, !emitted_emitted.
      now rewrite app_assoc.
    + rewrite emitted_emitted, app_nil_r. reflexivity.
Qed.

Lemma createSystemAlert_run (gnm : IStorage -> NotificationManager)
    (alert : SmartAlert.t) (s : State) :
  createSystemAlert gnm alert s =
  (Js.Normal tt, emitted s (alertEvents (gnm (storage (this s))) alert)).
Proof.
  unfold createSystemAlert, try_catch. cbv zeta.
  unfold bind, console_log. rewrite emit_emitted.
  rewrite sendAlertNotification_run. cbv zeta. simpl this.
  rewrite emitted_emitted. reflexivity.
Qed.

Lemma createHealthAlert_run (gnm : IStorage -> NotificationManager)
    (result : HealthCheckResult.t) (s : State) :
  createHealthAlert gnm result s =
  (Js.Normal tt,
   emitted s (alertEvents (gnm (storage (this s))) (healthAlert result))).
Proof.
  unfold createHealthAlert, try_catch. cbv zeta.
  now rewrite createSystemAlert_run.
Qed.

(** What [processHealthCheckResult] does, in full: the alert events for a
    bad status, then the cache update. *)
Lemma processHealthCheckResult_run (gnm : IStorage -> NotificationManager)
    (result : HealthCheckResult.t) (s : State) :
  processHealthCheckResult gnm result s =
  (Js.Normal tt,
   cached result
     (emitted s (if isBad result
                 then alertEvents (gnm (storage (this s))) (healthAlert result)
                 else []))).
Proof.
  unfold processHealthCheckResult, try_catch. cbv zeta.
  unfold bind at 1. unfold Date_now. unfold bind at 1.
  fold (isBad result). destruct (isBad result).
  - rewrite createHealthAlert_run. reflexivity.
  - unfold ret. rewrite emitted_nil. reflexivity.
Qed.

(** The shape of [attempted]: a prefix of the plan whose calls all
    succeed, except that a failure, if any, is the last call made. *)
Lemma attempted_shape (nm : NotificationManager) (plan : list Event.t) :
  exists rest,
    plan = (fst (attempted nm plan) ++ rest)%list /\
    match snd (attempted nm plan) with
    | None =>
        rest = [] /\
        Forall (fun c => outcome nm c = Js.Normal tt) (fst (attempted nm plan))
    | Some e =>
        exists ok c,
          fst (attempted nm plan) = (ok ++ [c])%list /\
          Forall (fun c => outcome nm c = Js.Normal tt) ok /\
          outcome nm c = Js.Throw e
    end.
Proof.
  induction plan as [|call plan IH]; simpl.
  - exists []. repeat split; constructor.
  - destruct (outcome nm call) as [[]|e] eqn:Hcall.
    + destruct IH as [rest [Hplan Hshape]].
      destruct (attempted nm plan) as [made [e|]]; simpl in *.
      * exists rest. split; [now rewrite <- Hplan|].
        destruct Hshape as [ok [c [Hmade [Hok Hc]]]].
        exists (call :: ok), c. subst made. repeat split; auto.
      * exists rest. split; [now rewrite <- Hplan|].
        destruct Hshape as [Hrest Hok]. split; auto.
    + exists plan. split; [reflexivity|].
      exists [], call. repeat split; auto.
Qed.

(** ** Notification fan-out *)

(** C1, as the code has it: [sendAlertNotification] never throws and
    leaves the monitor's fields alone.  It makes the planned calls (one
    per role, then one per user) in order; when every call made is
    delivered, the whole plan is carried out and nothing is logged; when a
    call is rejected, it is the last call made, the rejection is logged
    once, and the recipients after it are not attempted. *)
Theorem sendAlertNotification_stops_at_first_failure
    (gnm : IStorage -> NotificationManager) (alert : SmartAlert.t) (s : State) :
  exists made rest log,
    dispatchPlan alert = (made ++ rest)%list /\
    sendAlertNotification gnm alert s = (Js.Normal tt, emitted s (made ++ log)) /\
    ( (Forall (fun c => outcome (gnm (storage (this s))) c = Js.Normal tt) made
       /\ rest = [] /\ log = [])
      \/
      (exists ok c e,
          made = (ok ++ [c])%list /\
          Forall (fun c => outcome (gnm (storage (this s))) c = Js.Normal tt) ok /\
          outcome (gnm (storage (this s))) c = Js.Throw e /\
          log = [Event.error "[SystemHealthMonitor] خطأ في إرسال إشعار التحذير:" e]) ).
Proof.
  pose proof (sendAlertNotification_run gnm alert s) as Hrun. cbv zeta in Hrun.
  destruct (attempted_shape (gnm (storage (this s))) (dispatchPlan alert))
    as [rest [Hplan Hshape]].
  exists (fst (attempted (gnm (storage (this s))) (dispatchPlan alert))), rest,
    (notificationErrorLog (snd (attempted (gnm (storage (this s))) (dispatchPlan alert)))).
  split; [exact Hplan|]. split; [exact Hrun|].
  destruct (snd (attempted (gnm (storage (this s))) (dispatchPlan alert))) as [e|].
  - right. destruct Hshape as [ok [c [Hmade [Hok Hc]]]].
    exists ok, c, e. repeat split; auto.
  - left. destruct Hshape as [Hrest Hok]. repeat split; auto.
Qed.

(** C1, as the specification states it, fails: when the delivery to role 1
    is rejected, the alert's second recipient, role 2, is never attempted. *)
Lemma rejected_dispatch_blocks_later_recipients :
  ~ every_recipient_attempted role1_offline (healthAlert slowDatabaseResult) fresh.
Proof.
  intros H.
  specialize (H (Event.toRole 2
                   (notification (healthAlert slowDatabaseResult) RecipientType.role 2))).
  assert (Hin : In (Event.toRole 2
                      (notification (healthAlert slowDatabaseResult) RecipientType.role 2))
                   (dispatchPlan (healthAlert slowDatabaseResult))).
  { right. left. reflexivity. }
  specialize (H Hin). vm_compute in H.
  destruct H as [H|[]]. discriminate H.
Qed.

(** ** Counting alerts and calls *)

Lemma count_emitted (p : Event.t -> bool) (s : State) (events : list Event.t) :
  count p (emitted s events) = (count p s + List.length (filter p events))%nat.
Proof.
  unfold count, emitted; simpl. now rewrite filter_app, length_app.
Qed.

Lemma count_cached (p : Event.t -> bool) (result : HealthCheckResult.t) (s : State) :
  count p (cached result s) = count p s.
Proof. reflexivity. Qed.

Lemma dispatches_emitted (s : State) (events : list Event.t) :
  dispatches (emitted s events) = (dispatches s ++ filter isDispatch events)%list.
Proof. unfold dispatches, emitted; simpl. now rewrite filter_app. Qed.

Lemma dispatchPlan_isDispatch (alert : SmartAlert.t) :
  Forall (fun c => isDispatch c = true) (dispatchPlan alert).
Proof.
  unfold dispatchPlan. apply Forall_app; split; apply Forall_forall;
    intros c Hc; apply in_map_iff in Hc; destruct Hc as [x [<- _]]; reflexivity.
Qed.

Lemma attempted_isDispatch (nm : NotificationManager) (alert : SmartAlert.t) :
  Forall (fun c => isDispatch c = true) (fst (attempted nm (dispatchPlan alert))).
Proof.
  destruct (attempted_prefix nm (dispatchPlan alert)) as [rest Hplan].
  pose proof (dispatchPlan_isDispatch alert) as H.
  rewrite Hplan in H. now apply Forall_app in H.
Qed.

Lemma filter_all {A} (p : A -> bool) (l : list A) :
  Forall (fun x => p x = true) l -> filter p l = l.
Proof.
  induction 1 as [|x l Hx _ IH]; simpl; [reflexivity|]. now rewrite Hx, IH.
Qed.

Lemma filter_none {A} (p q : A -> bool) (l : list A) :
  (forall x, q x = true -> p x = false) ->
  Forall (fun x => q x = true) l -> filter p l = [].
Proof.
  intros Hpq. induction 1 as [|x l Hx _ IH]; simpl; [reflexivity|].
  now rewrite (Hpq x Hx).
Qed.

Lemma dispatch_not_created (e : Event.t) :
  isDispatch e = true -> isAlertCreated e = false.
Proof. now destruct e. Qed.


Lemma alertEvents_dispatches (nm : NotificationManager) (alert : SmartAlert.t) :
  filter isDispatch (alertEvents nm alert) = fst (attempted nm (dispatchPlan alert)).
Proof.
  unfold alertEvents. cbn [filter isDispatch]. rewrite filter_app.
  rewrite (filter_all _ _ (attempted_isDispatch nm alert)).
  destruct (snd (attempted nm (dispatchPlan alert))); simpl; now rewrite app_nil_r.
Qed.

Lemma alertEvents_created (nm : NotificationManager) (alert : SmartAlert.t) :
  List.length (filter isAlertCreated (alertEvents nm alert)) = 1%nat.
Proof.
  unfold alertEvents. cbn [filter isAlertCreated]. rewrite String.eqb_refl.
  rewrite filter_app.
  rewrite (filter_none _ _ _ dispatch_not_created (attempted_isDispatch nm alert)).
  destruct (snd (attempted nm (dispatchPlan alert))); reflexivity.
Qed.


(** What the loop of [performHealthChecks] does, in full. *)
Lemma processSettledResults_run (gnm : IStorage -> NotificationManager)
    (results : list (Js.PromiseSettledResult HealthCheckResult.t)) (s : State) :
  processSettledResults gnm results s =
  (Js.Normal tt,
   {| this := with_lastHealthStatus
                (cacheAll results (lastHealthStatus (this s))) (this s);
      host := with_trace
                (trace (host s)
                 ++ flat_map (resultEvents (gnm (storage (this s)))) results)%list
                (host s) |}).
Proof.
  unfold processSettledResults. revert s.
  induction results as [|r results IH]; intros s.
  - destruct s as [[st mi hi ar c] [ts n t tr]]; simpl.
    unfold ret, with_lastHealthStatus, with_trace; simpl. now rewrite app_nil_r.
  - cbn [for_of]. unfold bind at 1. destruct r as [value|reason].
    + rewrite processHealthCheckResult_run. rewrite IH.
      unfold cached, emitted, with_lastHealthStatus, with_trace; simpl.
      now rewrite <- app_assoc.
    + unfold console_error. rewrite emit_emitted. rewrite IH.
      unfold emitted, with_lastHealthStatus, with_trace; simpl.
      now rewrite <- app_assoc.
Qed.

Lemma healthAlert_plan (result : HealthCheckResult.t) :
  dispatchPlan (healthAlert result) =
  [ Event.toRole 1 (notification (healthAlert result) RecipientType.role 1);
    Event.toRole 2 (notification (healthAlert result) RecipientType.role 2) ].
Proof. reflexivity. Qed.

Lemma resultEvents_created (nm : NotificationManager)
    (results : list (Js.PromiseSettledResult HealthCheckResult.t)) :
  List.length (filter isAlertCreated (flat_map (resultEvents nm) results))
  = List.length (filter isFulfilledBad results).
Proof.
  induction results as [|r results IH]; [reflexivity|].
  cbn [flat_map]. rewrite filter_app, length_app, IH.
  destruct r as [value|reason]; simpl; [|reflexivity].
  destruct (isBad value); [|reflexivity].
  now rewrite alertEvents_created.
Qed.

Lemma resultEvents_dispatches (nm : NotificationManager)
    (results : list (Js.PromiseSettledResult HealthCheckResult.t)) :
  filter isDispatch (flat_map (resultEvents nm) results)
  = flat_map (resultDispatches nm) results.
Proof.
  induction results as [|r results IH]; [reflexivity|].
  cbn [flat_map]. rewrite filter_app, IH. f_equal.
  destruct r as [value|reason]; simpl; [|reflexivity].
  destruct (isBad value); [|reflexivity].
  apply alertEvents_dispatches.
Qed.

(** ** Alerts per health-check result *)

(** C2, as the code has it.  Whatever the monitor has cached before:
    - a critical or warning result makes [processHealthCheckResult] create
      exactly one alert (the row is built and its creation logged; no
      write to storage is made) and call the notification manager for the
      alert's recipients, roles 1 and 2, in order, stopping after a
      rejected call; when no call is rejected that is exactly one call per
      role;
    - over any sequence of settled results (one cycle or several in a
      row) the alerts created number the critical and warning results
      among them, so N bad results give N alerts;
    - when no fulfilled result of the sequence is critical or warning, no
      alert is created and no call is made. *)
Theorem one_alert_per_bad_result
    (gnm : IStorage -> NotificationManager) (s : State) :
  (forall result, isBad result = true ->
     let s' := snd (processHealthCheckResult gnm result s) in
     let nm := gnm (storage (this s)) in
     alertsCreated s' = (alertsCreated s + 1)%nat /\
     dispatches s' =
       (dispatches s ++ fst (attempted nm (dispatchPlan (healthAlert result))))%list /\
     ((forall call, In call (dispatchPlan (healthAlert result)) ->
          outcome nm call = Js.Normal tt) ->
      dispatches s' =
        (dispatches s ++
         [ Event.toRole 1 (notification (healthAlert result) RecipientType.role 1);
           Event.toRole 2 (notification (healthAlert result) RecipientType.role 2) ])%list))
  /\
  (forall results,
     let s' := snd (processSettledResults gnm results s) in
     alertsCreated s' =
       (alertsCreated s + List.length (filter isFulfilledBad results))%nat)
  /\
  (forall results,
     filter isFulfilledBad results = [] ->
     let s' := snd (processSettledResults gnm results s) in
     alertsCreated s' = alertsCreated s /\ dispatches s' = dispatches s).
Proof.
  split; [|split].
  - intros result Hbad s' nm. subst s'.
    rewrite processHealthCheckResult_run. cbn [snd]. rewrite Hbad. fold nm.
    unfold alertsCreated. rewrite count_cached, count_emitted, alertEvents_created.
    split; [reflexivity|].
    assert (Hd : dispatches (cached result (emitted s (alertEvents nm (healthAlert result))))
                 = (dispatches s ++ fst (attempted nm (dispatchPlan (healthAlert result))))%list).
    { change (dispatches (cached result ?x)) with (dispatches x).
      now rewrite dispatches_emitted, alertEvents_dispatches. }
    split; [exact Hd|].
    intros Hall. rewrite Hd, (attempted_all _ _ Hall). reflexivity.
  - intros results s'. subst s'. rewrite processSettledResults_run. cbn [snd].
    unfold alertsCreated, count. cbn [host trace with_trace].
    now rewrite filter_app, length_app, resultEvents_created.
  - intros results Hnone s'. subst s'. rewrite processSettledResults_run. cbn [snd].
    unfold alertsCreated, count, dispatches. cbn [host trace with_trace].
    rewrite !filter_app, length_app, resultEvents_created, Hnone.
    rewrite resultEvents_dispatches. split; [apply Nat.add_0_r|].
    assert (Hno : flat_map (resultDispatches (gnm (storage (this s)))) results = []).
    { clear -Hnone. induction results as [|r results IH]; [reflexivity|].
      simpl in Hnone. destruct r as [value|reason]; simpl in *.
      - destruct (isBad value); [discriminate|]. now apply IH.
      - now apply IH. }
    rewrite Hno. apply app_nil_r.
Qed.

(** Three critical results in a row, with every call delivered: three
    alerts and six calls, two per alert. *)
Lemma one_alert_per_bad_result_witness :
  alertsCreated
    (snd (processSettledResults delivering
            [ Js.fulfilled slowDatabaseResult;
              Js.fulfilled slowDatabaseResult;
              Js.fulfilled slowDatabaseResult ] fresh)) = 3%nat
  /\
  dispatches (snd (processHealthCheckResult delivering slowDatabaseResult fresh)) =
    [ Event.toRole 1 (notification (healthAlert slowDatabaseResult) RecipientType.role 1);
      Event.toRole 2 (notification (healthAlert slowDatabaseResult) RecipientType.role 2) ].
Proof.
  split.
  - exact (proj1 (proj2 (one_alert_per_bad_result delivering fresh))
             [ Js.fulfilled slowDatabaseResult;
               Js.fulfilled slowDatabaseResult;
               Js.fulfilled slowDatabaseResult ]).
  - exact (proj2 (proj2 (proj1 (one_alert_per_bad_result delivering fresh)
                           slowDatabaseResult eq_refl))
             (fun call _ => match call with
                            | Event.toRole _ _ | Event.toUser _ _ => eq_refl
                            | _ => eq_refl
                            end)).
Defined.

(** C2, as the specification states it, fails: when the delivery to role 1
    is rejected, a critical result leads to no call at all for role 2,
    although role 2 is among the alert's target roles. *)
Lemma rejected_dispatch_leaves_role_without_call :
  ~ one_dispatch_per_role role1_offline slowDatabaseResult fresh.
Proof.
  intros H. specialize (H eq_refl 2 (or_intror (or_introl eq_refl))).
  vm_compute in H. discriminate H.
Qed.

(** ** The synthesized alert and its notification payload *)

Lemma attempted_incl (nm : NotificationManager) (plan : list Event.t) (call : Event.t) :
  In call (fst (attempted nm plan)) -> In call plan.
Proof.
  intros H. destruct (attempted_prefix nm plan) as [rest Hplan].
  rewrite Hplan. apply in_or_app. now left.
Qed.









(** ** The health-check cycle *)

Lemma Map_get_set {V} (m : Js.Map V) (k k' : string) (v : V) :
  Js.Map_get (Js.Map_set m k v) k' =
  if String.eqb k k' then Some v else Js.Map_get m k'.
Proof.
  induction m as [|[k0 v0] m IH]; simpl.
  - reflexivity.
  - destruct (String.eqb_spec k0 k) as [->|Hk0]; simpl.
    + destruct (String.eqb_spec k k'); reflexivity.
    + rewrite IH. destruct (String.eqb_spec k0 k') as [->|Hk0'].
      * destruct (String.eqb_spec k k'); [congruence|reflexivity].
      * reflexivity.
Qed.

Lemma cacheAll_get (results : list (Js.PromiseSettledResult HealthCheckResult.t))
    (cache : Js.Map HealthCheckResult.t) (k : string) :
  (exists latest, In (Js.fulfilled latest) results /\ checkName latest = k /\
                  Js.Map_get (cacheAll results cache) k = Some latest)
  \/ Js.Map_get (cacheAll results cache) k = Js.Map_get cache k.
Proof.
  revert cache. induction results as [|r results IH]; intros cache.
  - now right.
  - destruct r as [value|reason]; cbn [cacheAll].
    + destruct (IH (Js.Map_set cache (checkName value) value))
        as [[latest [Hin [Hname Hget]]]|Hget].
      * left. exists latest. repeat split; auto. now right.
      * rewrite Map_get_set in Hget.
        destruct (String.eqb_spec (checkName value) k) as [Hk|Hk].
        -- left. exists value. repeat split; auto. now left.
        -- now right.
    + destruct (IH cache) as [[latest [Hin [Hname Hget]]]|Hget].
      * left. exists latest. repeat split; auto. now right.
      * now right.
Qed.

Lemma cacheAll_fulfilled (results : list (Js.PromiseSettledResult HealthCheckResult.t))
    (cache : Js.Map HealthCheckResult.t) (value : HealthCheckResult.t) :
  In (Js.fulfilled value) results ->
  exists latest, In (Js.fulfilled latest) results /\
                 checkName latest = checkName value /\
                 Js.Map_get (cacheAll results cache) (checkName value) = Some latest.
Proof.
  revert cache. induction results as [|r results IH]; intros cache Hin; [destruct Hin|].
  destruct Hin as [->|Hin].
  - cbn [cacheAll].
    destruct (cacheAll_get results (Js.Map_set cache (checkName value) value)
                (checkName value)) as [[latest [Hin [Hname Hget]]]|Hget].
    + exists latest. repeat split; auto. now right.
    + exists value. rewrite Hget, Map_get_set, String.eqb_refl.
      repeat split; auto. now left.
  - destruct r as [value'|reason]; cbn [cacheAll].
    + destruct (IH (Js.Map_set cache (checkName value') value') Hin)
        as [latest [Hin' [Hname Hget]]].
      exists latest. repeat split; auto. now right.
    + destruct (IH cache Hin) as [latest [Hin' [Hname Hget]]].
      exists latest. repeat split; auto. now right.
Qed.


Lemma performHealthChecks_run (gnm : IStorage -> NotificationManager)
    (runs : HealthCheckRuns) (s : State) :
  performHealthChecks gnm runs s = processSettledResults gnm (startChecks runs) s.
Proof.
  unfold performHealthChecks, try_catch. cbv zeta.
  unfold bind, Promise_allSettled, ret.
  now rewrite processSettledResults_run.
Qed.


Lemma checkDatabaseConnection_settles (run : Run (list Js.Object)) :
  exists r, checkDatabaseConnection run = Js.fulfilled r /\
            checkName r = "Database Connection" /\
            (forall e, awaited run = Js.Throw e ->
               status r = Status.critical /\ error r = Some (Js.message e)).
Proof.
  unfold checkDatabaseConnection.
  destruct (awaited run) as [rows|e]; eexists; (split; [reflexivity|]);
    (split; [reflexivity|]); intros e' He; inversion He; subst; now split.
Qed.

Lemma checkDatabasePerformance_settles (run : Run (list Js.Object * list Js.Object)) :
  exists r, checkDatabasePerformance run = Js.fulfilled r /\
            checkName r = "Database Performance" /\
            (forall e, awaited run = Js.Throw e ->
               status r = Status.critical /\ error r = Some (Js.message e)).
Proof.
  unfold checkDatabasePerformance.
  destruct (awaited run) as [[rows1 rows2]|e]; eexists; (split; [reflexivity|]);
    (split; [reflexivity|]); intros e' He; inversion He; subst; now split.
Qed.

Lemma checkSystemMemory_settles (run : Run MemoryUsage) :
  exists r, checkSystemMemory run = Js.fulfilled r /\
            checkName r = "Memory Usage" /\
            (forall e, awaited run = Js.Throw e ->
               status r = Status.unknown /\ error r = Some (Js.message e)).
Proof.
  unfold checkSystemMemory.
  destruct (awaited run) as [mem|e]; eexists; (split; [reflexivity|]);
    (split; [reflexivity|]); intros e' He; inversion He; subst; now split.
Qed.

Lemma checkSystemHealth_settles (run : Run ProcessInfo) :
  exists r, checkSystemHealth run = Js.fulfilled r /\
            checkName r = "System Health API" /\
            (forall e, awaited run = Js.Throw e ->
               status r = Status.critical /\ error r = Some (Js.message e)).
Proof.
  unfold checkSystemHealth.
  destruct (awaited run) as [info|e]; eexists; (split; [reflexivity|]);
    (split; [reflexivity|]); intros e' He; inversion He; subst; now split.
Qed.







(** ** Classification by the probes *)

(** C5.  The Database Connection check always yields a result, whose
    duration is the measured round trip.  When the query returns, the
    status is critical above 5000 ms, warning above 1000 ms and up to
    5000 ms, healthy otherwise, and no error is recorded; so 6000 ms is
    critical, 1500 ms warning, 200 ms healthy.  When the query throws, the
    status is critical and the error field holds the message. *)
Theorem checkDatabaseConnection_thresholds (run : Run (list Js.Object)) :
  (exists r,
     checkDatabaseConnection run = Js.fulfilled r /\
     duration r = endTime run - startTime run /\
     match awaited run with
     | Js.Normal _ =>
         error r = None /\
         (5000 < duration r -> status r = Status.critical) /\
         (1000 < duration r <= 5000 -> status r = Status.warning) /\
         (duration r <= 1000 -> status r = Status.healthy)
     | Js.Throw e =>
         status r = Status.critical /\ error r = Some (Js.message e)
     end)
  /\
  (forall rows d,
     awaited run = Js.Normal rows -> endTime run - startTime run = d ->
     exists r,
       checkDatabaseConnection run = Js.fulfilled r /\
       (d = 6000 -> status r = Status.critical) /\
       (d = 1500 -> status r = Status.warning) /\
       (d = 200 -> status r = Status.healthy)).
Proof.
  split.
  - unfold checkDatabaseConnection.
    destruct (awaited run) as [rows|e]; eexists; (split; [reflexivity|]);
      cbn [duration status error]; (split; [reflexivity|]).
    + split; [reflexivity|].
      destruct (Z.ltb_spec 5000 (endTime run - startTime run));
        destruct (Z.ltb_spec 1000 (endTime run - startTime run));
        repeat split; intros; try reflexivity; lia.
    + now split.
  - intros rows d Hrows Hd. unfold checkDatabaseConnection. rewrite Hrows, Hd.
    eexists; split; [reflexivity|]. cbn [status].
    repeat split; intros ->; reflexivity.
Qed.

(** A round trip of seven seconds is critical. *)
Lemma checkDatabaseConnection_thresholds_witness :
  exists r, checkDatabaseConnection slowDatabase = Js.fulfilled r /\
            status r = Status.critical.
Proof.
  destruct (proj1 (checkDatabaseConnection_thresholds slowDatabase))
    as [r [Hr [Hd [_ [Hcritical _]]]]].
  exists r. split; [exact Hr|]. apply Hcritical. rewrite Hd. reflexivity.
Defined.

(** C6.  The Database Performance check always yields a result.  When
    both queries return, the status is warning exactly when the measured
    duration is above 500 ms and up to 2000 ms, critical above 2000 ms and
    healthy otherwise.  When either query throws, the status is critical
    and the error field holds the message. *)
Theorem checkDatabasePerformance_thresholds
    (run : Run (list Js.Object * list Js.Object)) :
  exists r,
    checkDatabasePerformance run = Js.fulfilled r /\
    duration r = endTime run - startTime run /\
    match awaited run with
    | Js.Normal _ =>
        error r = None /\
        (status r = Status.warning <-> 500 < duration r <= 2000) /\
        (2000 < duration r -> status r = Status.critical) /\
        (duration r <= 500 -> status r = Status.healthy)
    | Js.Throw e =>
        status r = Status.critical /\ error r = Some (Js.message e)
    end.
Proof.
  unfold checkDatabasePerformance.
  destruct (awaited run) as [[activeConnections dbSize]|e];
    eexists; (split; [reflexivity|]);
    cbn [duration status error]; (split; [reflexivity|]).
  - split; [reflexivity|].
    destruct (Z.ltb_spec 2000 (endTime run - startTime run));
      destruct (Z.ltb_spec 500 (endTime run - startTime run));
      repeat split; intros; try reflexivity; try lia; try discriminate.
  - now split.
Qed.

(** A measured duration of 1500 ms is a warning. *)
Lemma checkDatabasePerformance_thresholds_witness :
  exists r,
    checkDatabasePerformance
      {| startTime := 100; awaited := Js.Normal ([], []); endTime := 1600 |}
    = Js.fulfilled r /\
    status r = Status.warning.
Proof.
  destruct (checkDatabasePerformance_thresholds
              {| startTime := 100; awaited := Js.Normal ([], []); endTime := 1600 |})
    as [r [Hr [Hd [_ [Hwarning _]]]]].
  exists r. split; [exact Hr|]. apply Hwarning. rewrite Hd. simpl. lia.
Defined.

(** *** Comparing a binary64 value with the memory thresholds *)

Lemma Prim2SF_95 : Prim2SF 95%float = sf95.
Proof. reflexivity. Qed.

Lemma Prim2SF_80 : Prim2SF 80%float = sf80.
Proof. reflexivity. Qed.

Lemma SFcompare_threshold_l (c m : positive) (e : Z) :
  SFcompare (S754_finite false c (-46)) (S754_finite false m e) =
  Some (match (-46 ?= e) with
        | Eq => Pos.compare c m
        | Lt => Lt
        | Gt => Gt
        end).
Proof. reflexivity. Qed.

Lemma SFcompare_threshold_r (c m : positive) (e : Z) :
  SFcompare (S754_finite false m e) (S754_finite false c (-46)) =
  Some (match (e ?= -46) with
        | Eq => Pos.compare m c
        | Lt => Lt
        | Gt => Gt
        end).
Proof. reflexivity. Qed.

(** Above 95 is above 80. *)
Lemma SFltb_95_80 (x : spec_float) : SFltb sf95 x = true -> SFltb sf80 x = true.
Proof.
  unfold SFltb, sf95, sf80.
  destruct x as [s|s| |s m e].
  - destruct s; cbn; congruence.
  - destruct s; cbn; congruence.
  - cbn; congruence.
  - destruct s.
    + cbn; congruence.
    + rewrite !SFcompare_threshold_l.
      destruct (-46 ?= e); try congruence.
      destruct (Pos.compare_spec 6685030696878080 m); try congruence.
      intros _.
      assert (Hlt : (5629499534213120 < m)%positive).
      { eapply Pos.lt_trans; [|eassumption]. reflexivity. }
      unfold Pos.lt in Hlt. now rewrite Hlt.
Qed.

(** At most 95 is not above 95. *)
Lemma SFleb_95_not_ltb (x : spec_float) : SFleb x sf95 = true -> SFltb sf95 x = false.
Proof.
  unfold SFltb, SFleb, sf95.
  destruct x as [s|s| |s m e].
  - destruct s; intros _; reflexivity.
  - destruct s; cbn; congruence.
  - cbn; congruence.
  - destruct s.
    + intros _; reflexivity.
    + rewrite SFcompare_threshold_l, SFcompare_threshold_r.
      rewrite (Z.compare_antisym e (-46)).
      destruct (e ?= -46); cbn [CompOpp]; try congruence.
      rewrite (Pos.compare_antisym m 6685030696878080).
      destruct (m ?= 6685030696878080)%positive; cbn [CompOpp]; congruence.
Qed.

(** Above 80 (hence a number) and not above 95 is at most 95. *)
Lemma SFltb_80_not_95_leb (x : spec_float) :
  SFltb sf80 x = true -> SFltb sf95 x = false -> SFleb x sf95 = true.
Proof.
  unfold SFltb, SFleb, sf95, sf80.
  destruct x as [s|s| |s m e].
  - destruct s; cbn; congruence.
  - destruct s; cbn; congruence.
  - cbn; congruence.
  - destruct s.
    + intros _ _; reflexivity.
    + rewrite !SFcompare_threshold_l, SFcompare_threshold_r.
      rewrite (Z.compare_antisym e (-46)).
      destruct (e ?= -46); cbn [CompOpp]; try congruence.
      rewrite (Pos.compare_antisym m 6685030696878080).
      destruct (m ?= 6685030696878080)%positive; cbn [CompOpp]; congruence.
Qed.

Lemma above_95_above_80 (p : float) :
  (95 <? p)%float = true -> (80 <? p)%float = true.
Proof. rewrite !ltb_spec, Prim2SF_95, Prim2SF_80. apply SFltb_95_80. Qed.

Lemma at_most_95_not_above (p : float) :
  (p <=? 95)%float = true -> (95 <? p)%float = false.
Proof. rewrite ltb_spec, leb_spec, Prim2SF_95. apply SFleb_95_not_ltb. Qed.

Lemma between_80_95 (p : float) :
  (80 <? p)%float = true -> (95 <? p)%float = false -> (p <=? 95)%float = true.
Proof. rewrite !ltb_spec, leb_spec, Prim2SF_95, Prim2SF_80. apply SFltb_80_not_95_leb. Qed.

(** C7.  The Memory Usage check never throws: it always yields a result.
    With p the sampled heap usage percentage (heap used divided by heap
    total, times 100, in binary64 arithmetic), the status is critical
    exactly when p > 95, warning exactly when 80 < p and p <= 95, and
    healthy exactly when p is not above 80; so, of a heap of 100, 96 used
    is critical, 85 warning and 50 healthy.  When sampling throws, the
    status is unknown and the error field holds the message. *)
Theorem checkSystemMemory_thresholds (run : Run MemoryUsage) :
  (exists r,
     checkSystemMemory run = Js.fulfilled r /\
     match awaited run with
     | Js.Normal memoryUsage =>
         let p := usagePercent memoryUsage in
         error r = None /\
         (status r = Status.critical <-> (95 <? p)%float = true) /\
         (status r = Status.warning <->
            (80 <? p)%float = true /\ (p <=? 95)%float = true) /\
         (status r = Status.healthy <-> (80 <? p)%float = false)
     | Js.Throw e =>
         status r = Status.unknown /\ error r = Some (Js.message e)
     end)
  /\
  (forall memoryUsage,
     awaited run = Js.Normal memoryUsage ->
     heapTotal memoryUsage = 100%float ->
     exists r,
       checkSystemMemory run = Js.fulfilled r /\
       (heapUsed memoryUsage = 96%float -> status r = Status.critical) /\
       (heapUsed memoryUsage = 85%float -> status r = Status.warning) /\
       (heapUsed memoryUsage = 50%float -> status r = Status.healthy)).
Proof.
  split.
  - unfold checkSystemMemory.
    destruct (awaited run) as [memoryUsage|e]; eexists; (split; [reflexivity|]);
      cbn [status error]; [|now split].
    cbv zeta. fold (usagePercent memoryUsage).
    split; [reflexivity|].
    destruct (95 <? usagePercent memoryUsage)%float eqn:H95.
    + pose proof (above_95_above_80 _ H95) as H80. rewrite H80.
      repeat split; try congruence.
      intros [_ Hle]. apply at_most_95_not_above in Hle. congruence.
    + destruct (80 <? usagePercent memoryUsage)%float eqn:H80.
      * repeat split; try congruence. now apply between_80_95.
      * repeat split; try congruence. intros [H _]. congruence.
  - intros memoryUsage Hmem Htotal. unfold checkSystemMemory. rewrite Hmem, Htotal.
    eexists; split; [reflexivity|]. cbn [status].
    repeat split; intros ->; reflexivity.
Qed.

(** Heap sampling that throws gives an unknown status, not an exception. *)
Lemma checkSystemMemory_thresholds_witness :
  exists r, checkSystemMemory failedSampling = Js.fulfilled r /\
            status r = Status.unknown /\
            error r = Some "memoryUsage failed".
Proof.
  destruct (proj1 (checkSystemMemory_thresholds failedSampling)) as [r [Hr H]].
  exists r. split; [exact Hr|]. exact H.
Defined.

(** ** Stopping the monitor and reporting its status *)

Lemma clearInterval_disarms (t : Timeout) (ts : list Timer) :
  ~ In t (map timeout
            (filter (fun x => negb (Nat.eqb (timerId (timeout x)) (timerId t))) ts)).
Proof.
  intros Hin. apply in_map_iff in Hin. destruct Hin as [x [Hx Hin]].
  apply filter_In in Hin. destruct Hin as [_ Hne]. subst t.
  now rewrite Nat.eqb_refl in Hne.
Qed.

Lemma filter_keeps_out {A} (p : A -> bool) (f : A -> Timeout) (t : Timeout) (l : list A) :
  ~ In t (map f l) -> ~ In t (map f (filter p l)).
Proof.
  intros Hout Hin. apply Hout. apply in_map_iff in Hin.
  destruct Hin as [x [Hx Hin]]. apply filter_In in Hin.
  apply in_map_iff. exists x. tauto.
Qed.

(** C8.  [stopMonitoring] never throws, and after it both timer handles
    are null: [getSystemStatus] reports both timers unarmed, and the host
    no longer holds a timer for either handle.  Calling it a second time
    changes neither the monitor's fields nor the host's timers; the second
    call only writes its log line again. *)
Theorem stopMonitoring_idempotent (s : State) :
  let once := snd (stopMonitoring s) in
  let twice := snd (stopMonitoring once) in
  fst (stopMonitoring s) = Js.Normal tt /\
  fst (stopMonitoring once) = Js.Normal tt /\
  healthCheckInterval (this once) = None /\
  monitoringInterval (this once) = None /\
  (forall t, healthCheckInterval (this s) = Some t \/ monitoringInterval (this s) = Some t ->
     ~ In t (map timeout (timers (host once)))) /\
  twice = emitted once [stoppedLog] /\
  this twice = this once /\
  timers (host twice) = timers (host once) /\
  getSystemStatus once =
    (Js.Normal {| monitoring := false;
                  healthChecks := false;
                  lastHealthChecks := Js.Map_values (lastHealthStatus (this s));
                  totalAlertRules := List.length (alertRules (this s)) |},
     once) /\
  getSystemStatus twice =
    (Js.Normal {| monitoring := false;
                  healthChecks := false;
                  lastHealthChecks := Js.Map_values (lastHealthStatus (this s));
                  totalAlertRules := List.length (alertRules (this s)) |},
     twice).
Proof.
  destruct s as [[st mi hi ar c] [ts n clk tr]].
  destruct mi as [m|], hi as [h|]; cbv zeta;
    repeat match goal with |- _ /\ _ => split end;
    try reflexivity;
    (intros t [Ht|Ht]; simpl in Ht; inversion Ht; subst; simpl;
     try apply clearInterval_disarms;
     try (apply filter_keeps_out; apply clearInterval_disarms)).
Qed.

Lemma cycleResults_four (runs : HealthCheckRuns) :
  exists r1 r2 r3 r4,
    cycleResults runs = [r1; r2; r3; r4] /\
    startChecks runs = [Js.fulfilled r1; Js.fulfilled r2; Js.fulfilled r3; Js.fulfilled r4] /\
    map checkName [r1; r2; r3; r4] = probeNames.
Proof.
  destruct (checkDatabaseConnection_settles (databaseConnection runs))
    as [r1 [H1 [N1 _]]].
  destruct (checkDatabasePerformance_settles (databasePerformance runs))
    as [r2 [H2 [N2 _]]].
  destruct (checkSystemMemory_settles (systemMemory runs)) as [r3 [H3 [N3 _]]].
  destruct (checkSystemHealth_settles (systemHealth runs)) as [r4 [H4 [N4 _]]].
  exists r1, r2, r3, r4. unfold cycleResults, startChecks.
  rewrite H1, H2, H3, H4. repeat split. cbn [map]. now rewrite N1, N2, N3, N4.
Qed.

Lemma cacheAll_app (a b : list (Js.PromiseSettledResult HealthCheckResult.t))
    (cache : Js.Map HealthCheckResult.t) :
  cacheAll (a ++ b) cache = cacheAll b (cacheAll a cache).
Proof.
  revert cache. induction a as [|r a IH]; intros cache; [reflexivity|].
  destruct r as [value|reason]; cbn [app cacheAll]; apply IH.
Qed.

(** The loop over the settled results can be cut anywhere: it goes on
    from the state its first part leaves. *)
Lemma processSettledResults_app (gnm : IStorage -> NotificationManager)
    (a b : list (Js.PromiseSettledResult HealthCheckResult.t)) (s : State) :
  processSettledResults gnm (a ++ b) s =
  processSettledResults gnm b (snd (processSettledResults gnm a s)).
Proof.
  rewrite !processSettledResults_run.
  cbn [snd this host with_lastHealthStatus with_trace lastHealthStatus storage trace
       timers nextTimerId now monitoringInterval healthCheckInterval alertRules].
  now rewrite cacheAll_app, flat_map_app, app_assoc.
Qed.

Lemma midCycle_run (gnm : IStorage -> NotificationManager)
    (runs : HealthCheckRuns) (k : nat) (s : State) :
  midCycle gnm runs k s =
  {| this := with_lastHealthStatus
               (cacheAll (firstn k (startChecks runs)) (lastHealthStatus (this s)))
               (this s);
     host := with_trace
               (trace (host s)
                ++ flat_map (resultEvents (gnm (storage (this s))))
                            (firstn k (startChecks runs)))%list
               (host s) |}.
Proof. unfold midCycle. now rewrite processSettledResults_run. Qed.

(** From an empty cache, the first [k] results of a cycle are what the
    cache holds once they have been processed. *)
Lemma midCycle_cache (gnm : IStorage -> NotificationManager)
    (runs : HealthCheckRuns) (k : nat) (s : State) :
  lastHealthStatus (this s) = [] ->
  Js.Map_values (lastHealthStatus (this (midCycle gnm runs k s)))
  = firstn k (cycleResults runs).
Proof.
  intros Hempty. rewrite midCycle_run.
  cbn [this with_lastHealthStatus lastHealthStatus]. rewrite Hempty.
  destruct (cycleResults_four runs) as [r1 [r2 [r3 [r4 [Hr [Hs Hn]]]]]].
  rewrite Hr, Hs. cbn [map] in Hn. injection Hn as N1 N2 N3 N4.
  destruct k as [|[|[|[|k]]]]; cbn [firstn cacheAll];
    rewrite ?N1, ?N2, ?N3, ?N4, ?firstn_nil; reflexivity.
Qed.

(** C9, as the code has it.  [getSystemStatus] is a read: it returns
    without throwing and leaves the whole state (timer handles,
    last-known-status cache, alert rules, and the host) as it was.  It
    reports each timer as armed exactly when its handle is not null,
    together with the cached results in the order of the cache.  When
    [new] returns, no timer is armed yet and both are reported unarmed;
    once [initialize] has run to its end the monitor is started, and
    until a health-check result is processed it reports both timers armed
    and an empty collection.  The cycle stores each result as soon as it
    is processed: from an empty cache, at the point of the first cycle
    where [k] results have been processed, the collection holds exactly
    these [k] results, so it is empty only before the first result is
    processed, not until the cycle completes. *)
Theorem getSystemStatus_reads_only
    (gnm : IStorage -> NotificationManager) (runs : HealthCheckRuns) (s : State) :
  (exists status,
     getSystemStatus s = (Js.Normal status, s) /\
     (monitoring status = true <-> monitoringInterval (this s) <> None) /\
     (healthChecks status = true <-> healthCheckInterval (this s) <> None) /\
     lastHealthChecks status = map snd (lastHealthStatus (this s)) /\
     totalAlertRules status = List.length (alertRules (this s)))
  /\
  (forall storage,
     let constructed := snd (constructor storage (host s)) in
     let started := snd (initialize_after_await constructed) in
     fst (constructor storage (host s)) = Js.Normal tt /\
     timers (host constructed) = timers (host s) /\
     getSystemStatus constructed =
       (Js.Normal {| monitoring := false;
                     healthChecks := false;
                     lastHealthChecks := [];
                     totalAlertRules := 0 |},
        constructed) /\
     fst (initialize_after_await constructed) = Js.Normal tt /\
     getSystemStatus started =
       (Js.Normal {| monitoring := true;
                     healthChecks := true;
                     lastHealthChecks := [];
                     totalAlertRules := 0 |},
        started) /\
     (exists h m,
        healthCheckInterval (this started) = Some h /\
        monitoringInterval (this started) = Some m /\
        In {| timeout := h; callback := tick_performHealthChecks;
              period := HEALTH_CHECK_INTERVAL |} (timers (host started)) /\
        In {| timeout := m; callback := tick_performMonitoring;
              period := MONITORING_INTERVAL |} (timers (host started))))
  /\
  (lastHealthStatus (this s) = [] ->
   forall k,
     let mid := midCycle gnm runs k s in
     performHealthChecks gnm runs s
     = processSettledResults gnm (skipn k (startChecks runs)) mid /\
     getSystemStatus mid =
       (Js.Normal {| monitoring := not_null (monitoringInterval (this s));
                     healthChecks := not_null (healthCheckInterval (this s));
                     lastHealthChecks := firstn k (cycleResults runs);
                     totalAlertRules := List.length (alertRules (this s)) |},
        mid) /\
     (firstn k (cycleResults runs) = [] <-> k = 0%nat)).
Proof.
  split; [|split].
  - eexists. split; [reflexivity|]. cbn [monitoring healthChecks lastHealthChecks
                                         totalAlertRules].
    split; [|split; [|split; reflexivity]].
    + destruct (monitoringInterval (this s)); simpl; split; congruence.
    + destruct (healthCheckInterval (this s)); simpl; split; congruence.
  - intros storage constructed started. subst started constructed.
    destruct (host s) as [ts n clk tr].
    split; [reflexivity|]. split; [reflexivity|]. split; [reflexivity|].
    split; [reflexivity|]. split; [reflexivity|].
    eexists. eexists. split; [reflexivity|]. split; [reflexivity|].
    cbn [host timers with_timers with_trace]. split.
    + apply in_or_app; left. apply in_or_app; right. left. reflexivity.
    + apply in_or_app; right. left. reflexivity.
  - intros Hempty k mid. split; [|split].
    + subst mid. unfold midCycle. rewrite performHealthChecks_run.
      rewrite <- processSettledResults_app. now rewrite firstn_skipn.
    + pose proof (midCycle_cache gnm runs k s Hempty) as Hcache. fold mid in Hcache.
      unfold getSystemStatus, bind, get_this, ret. rewrite Hcache.
      subst mid. rewrite midCycle_run. reflexivity.
    + destruct (cycleResults_four runs) as [r1 [r2 [r3 [r4 [Hr _]]]]]. rewrite Hr.
      destruct k; simpl; split; congruence.
Qed.

(** On the started monitor, when two results of the troubled cycle have
    been processed, both timers are reported armed and the two results
    are listed. *)
Lemma getSystemStatus_reads_only_witness :
  fst (getSystemStatus (midCycle delivering troubledRuns 2 started)) =
  Js.Normal {| monitoring := true;
               healthChecks := true;
               lastHealthChecks := firstn 2 (cycleResults troubledRuns);
               totalAlertRules := 0 |}.
Proof.
  exact (f_equal fst
           (proj1 (proj2
              (proj2 (proj2 (getSystemStatus_reads_only delivering troubledRuns started))
                 eq_refl 2%nat)))).
Defined.

(** C9, as the specification states it, fails: in the troubled cycle on
    the started monitor, once the first result has been processed and
    with three results still to come, the collection reported is not
    empty. *)
Lemma first_result_reported_before_cycle_completes :
  ~ nothing_cached_until_cycle_completes delivering troubledRuns started.
Proof.
  intros H.
  assert (Hlt : (1 < List.length (startChecks troubledRuns))%nat) by (simpl; lia).
  specialize (H 1%nat Hlt _ eq_refl). vm_compute in H. discriminate H.
Qed.

(** ** Results of unknown status *)

(** C10.  A result whose status is unknown raises no alert: processing it
    returns normally, writes nothing to the console, makes no call to the
    notification manager and touches no timer; it only stores the result
    in the last-known-status cache under its check name. *)
Theorem unknown_status_only_cached
    (gnm : IStorage -> NotificationManager) (result : HealthCheckResult.t) (s : State)
    (Hunknown : status result = Status.unknown) :
  let s' := snd (processHealthCheckResult gnm result s) in
  fst (processHealthCheckResult gnm result s) = Js.Normal tt /\
  host s' = host s /\
  alertsCreated s' = alertsCreated s /\
  dispatches s' = dispatches s /\
  Js.Map_get (lastHealthStatus (this s')) (checkName result) = Some result /\
  (forall name, name <> checkName result ->
     Js.Map_get (lastHealthStatus (this s')) name
     = Js.Map_get (lastHealthStatus (this s)) name) /\
  monitoringInterval (this s') = monitoringInterval (this s) /\
  healthCheckInterval (this s') = healthCheckInterval (this s) /\
  alertRules (this s') = alertRules (this s) /\
  storage (this s') = storage (this s).
Proof.
  intros s'. subst s'. rewrite processHealthCheckResult_run.
  unfold isBad. rewrite Hunknown. cbn [Status.eqb orb fst snd].
  rewrite emitted_nil.
  repeat match goal with |- _ /\ _ => split end; try reflexivity.
  - cbn. now rewrite Map_get_set, String.eqb_refl.
  - intros name Hname. cbn. rewrite Map_get_set.
    destruct (String.eqb_spec (checkName result) name); congruence.
Qed.

(** The result of the memory probe when heap sampling throws is only
    cached. *)
Lemma unknown_status_only_cached_witness :
  checkSystemMemory failedSampling = Js.fulfilled failedSamplingResult /\
  host (snd (processHealthCheckResult role1_offline failedSamplingResult fresh))
  = host fresh /\
  Js.Map_get
    (lastHealthStatus
       (this (snd (processHealthCheckResult role1_offline failedSamplingResult fresh))))
    "Memory Usage" = Some failedSamplingResult.
Proof.
  pose proof (unknown_status_only_cached role1_offline failedSamplingResult fresh eq_refl)
    as H.
  cbv zeta in H. destruct H as [_ [Hhost [_ [_ [Hget _]]]]].
  split; [reflexivity|]. split; [exact Hhost|exact Hget].
Defined.

(** ** The properties at work on the sample inputs *)

(** With every call delivered, both roles of a health alert are called,
    in order, and nothing is logged. *)
Example delivering_reaches_both_roles :
  sendAlertNotification delivering (healthAlert slowDatabaseResult) fresh =
  (Js.Normal tt, emitted fresh (dispatchPlan (healthAlert slowDatabaseResult))).
Proof. reflexivity. Qed.

(** With role 1 rejected, one call is made and the rejection is logged. *)
Example role1_offline_stops_after_first_call :
  sendAlertNotification role1_offline (healthAlert slowDatabaseResult) fresh =
  (Js.Normal tt,
   emitted fresh
     [ Event.toRole 1
         (notification (healthAlert slowDatabaseResult) RecipientType.role 1);
       Event.error "[SystemHealthMonitor] خطأ في إرسال إشعار التحذير:"
         {| Js.message := "offline" |} ]).
Proof. reflexivity. Qed.

(** The troubled cycle: two probes fail and one is slow, yet all four
    results are cached, in the order of the probes, and the two bad ones
    (connection critical, performance warning) raise one alert each with
    two calls each; the unknown memory result raises none. *)
Example troubled_cycle :
  let after := snd (performHealthChecks delivering troubledRuns started) in
  map fst (lastHealthStatus (this after)) =
    [ "Database Connection"; "Database Performance"; "Memory Usage";
      "System Health API" ] /\
  map (fun r => status (snd r)) (lastHealthStatus (this after)) =
    [ Status.critical; Status.warning; Status.unknown; Status.healthy ] /\
  alertsCreated after = 2%nat /\
  List.length (dispatches after) = 4%nat.
Proof. vm_compute. repeat split. Qed.


(** Stopping the started monitor twice: no timer is left, and the second
    call adds one console line. *)
Lemma stopMonitoring_idempotent_witness :
  timers (host (snd (stopMonitoring started))) = [] /\
  snd (stopMonitoring (snd (stopMonitoring started)))
  = emitted (snd (stopMonitoring started)) [stoppedLog].
Proof.
  split; [reflexivity|].
  exact (proj1 (proj2 (proj2 (proj2 (proj2 (proj2 (stopMonitoring_idempotent started))))))).
Defined.

(** * Further properties of the monitor *)

(** ** The general-monitoring cycle *)

Lemma performMonitoring_run (gnm : IStorage -> NotificationManager)
    (sample : Js.Completion PerformanceSample) (s : State) :
  performMonitoring gnm sample s = (Js.Normal tt, emitted s (monitoringEvents sample)).
Proof.
  destruct s as [m [ts n clk tr]].
  destruct sample as [sampled|e]; unfold emitted, with_trace; cbn;
    rewrite <- !app_assoc; reflexivity.
Qed.

Lemma monitoringEvents_quiet (sample : Js.Completion PerformanceSample) :
  filter isAlertCreated (monitoringEvents sample) = [] /\
  filter isDispatch (monitoringEvents sample) = [].
Proof. destruct sample; split; reflexivity. Qed.

(** X1.  A general-monitoring cycle never throws, creates no alert and
    makes no call to the notification manager, whatever the sample and
    whatever the manager: the counting queries for overdue orders, broken
    machines and low stock are placeholders that return 0, so the alert
    branches are never taken, and the clean-up deletes nothing.  It
    leaves the monitor's fields, the timers and the clock alone and only
    appends console lines. *)
Theorem performMonitoring_raises_no_alert
    (gnm : IStorage -> NotificationManager)
    (sample : Js.Completion PerformanceSample) (s : State) :
  let s' := snd (performMonitoring gnm sample s) in
  fst (performMonitoring gnm sample s) = Js.Normal tt /\
  this s' = this s /\
  timers (host s') = timers (host s) /\
  nextTimerId (host s') = nextTimerId (host s) /\
  now (host s') = now (host s) /\
  alertsCreated s' = alertsCreated s /\
  dispatches s' = dispatches s /\
  (exists lines, trace (host s') = (trace (host s) ++ lines)%list /\
                 Forall (fun e => isDispatch e = false) lines).
Proof.
  intros s'. subst s'. rewrite performMonitoring_run. cbn [fst snd].
  destruct (monitoringEvents_quiet sample) as [Hcreated Hdispatch].
  repeat match goal with |- _ /\ _ => split end; try reflexivity.
  - unfold alertsCreated. rewrite count_emitted, Hcreated. apply Nat.add_0_r.
  - rewrite dispatches_emitted, Hdispatch. apply app_nil_r.
  - exists (monitoringEvents sample). split; [reflexivity|].
    destruct sample; repeat constructor.
Qed.

(** X2.  A failure of the performance sampling does not stop the cycle:
    it is logged once, and the production, inventory and clean-up steps
    run as they do after a successful sampling. *)
Theorem performMonitoring_survives_failed_sampling
    (gnm : IStorage -> NotificationManager)
    (sampled : PerformanceSample) (e : Js.Error) (s : State) :
  exists rest,
    trace (host (snd (performMonitoring gnm (Js.Normal sampled) s))) =
      (trace (host s)
       ++ Event.log "[SystemHealthMonitor] تم رصد مؤشرات الأداء" None :: rest)%list /\
    trace (host (snd (performMonitoring gnm (Js.Throw e) s))) =
      (trace (host s)
       ++ Event.error "[SystemHealthMonitor] خطأ في مراقبة الأداء:" e :: rest)%list /\
    List.length rest = 4%nat /\
    fst (performMonitoring gnm (Js.Throw e) s) = Js.Normal tt.
Proof.
  exists stubLines. rewrite !performMonitoring_run. repeat split.
Qed.

(** ** Production and inventory alerts *)

(** X3.  [createProductionAlert] and [createInventoryAlert] never throw
    and leave the monitor's fields alone.  Each creates exactly one alert
    and sets out to call roles 2 and 3 (production) or roles 2 and 4
    (inventory), in that order and no user, stopping after a rejected
    call.  Every payload has normal priority and no sound, carries the
    message of [data] and the alert type as context id, and has the
    factory glyph (production) or the parcel glyph (inventory). *)
Theorem domain_alerts_fan_out
    (gnm : IStorage -> NotificationManager) (type : string)
    (data : AlertData.t) (s : State) :
  let nm := gnm (storage (this s)) in
  (let alert := productionAlert type data in
   let s' := snd (createProductionAlert gnm type data s) in
   fst (createProductionAlert gnm type data s) = Js.Normal tt /\
   this s' = this s /\
   alertsCreated s' = (alertsCreated s + 1)%nat /\
   dispatchPlan alert =
     [ Event.toRole 2 (notification alert RecipientType.role 2);
       Event.toRole 3 (notification alert RecipientType.role 3) ] /\
   dispatches s' = (dispatches s ++ fst (attempted nm (dispatchPlan alert)))%list /\
   forall recipient_type recipient,
     let payload := notification alert recipient_type recipient in
     NotificationData.priority payload = Priority.normal /\
     NotificationData.sound payload = false /\
     NotificationData.icon payload = Js.str "🏭" /\
     NotificationData.message payload = AlertData.message data /\
     NotificationData.context_id payload = Some type)
  /\
  (let alert := inventoryAlert type data in
   let s' := snd (createInventoryAlert gnm type data s) in
   fst (createInventoryAlert gnm type data s) = Js.Normal tt /\
   this s' = this s /\
   alertsCreated s' = (alertsCreated s + 1)%nat /\
   dispatchPlan alert =
     [ Event.toRole 2 (notification alert RecipientType.role 2);
       Event.toRole 4 (notification alert RecipientType.role 4) ] /\
   dispatches s' = (dispatches s ++ fst (attempted nm (dispatchPlan alert)))%list /\
   forall recipient_type recipient,
     let payload := notification alert recipient_type recipient in
     NotificationData.priority payload = Priority.normal /\
     NotificationData.sound payload = false /\
     NotificationData.icon payload = Js.str "📦" /\
     NotificationData.message payload = AlertData.message data /\
     NotificationData.context_id payload = Some type).
Proof.
  intros nm. split.
  - intros alert s'. subst s'.
    unfold createProductionAlert. cbv zeta. rewrite createSystemAlert_run.
    fold nm. fold alert. cbn [fst snd].
    split; [reflexivity|]. split; [reflexivity|].
    split; [unfold alertsCreated; now rewrite count_emitted, alertEvents_created|].
    split; [reflexivity|].
    split; [now rewrite dispatches_emitted, alertEvents_dispatches|].
    intros rt r. repeat split.
  - intros alert s'. subst s'.
    unfold createInventoryAlert. cbv zeta. rewrite createSystemAlert_run.
    fold nm. fold alert. cbn [fst snd].
    split; [reflexivity|]. split; [reflexivity|].
    split; [unfold alertsCreated; now rewrite count_emitted, alertEvents_created|].
    split; [reflexivity|].
    split; [now rewrite dispatches_emitted, alertEvents_dispatches|].
    intros rt r. repeat split.
Qed.

(** ** Timer firings *)

Lemma extends_refl (s : State) : extends s s.
Proof.
  exists (lastHealthStatus (this s)), [].
  destruct s as [[st mi hi ar c] [ts n clk tr]].
  unfold with_lastHealthStatus, with_trace; simpl. now rewrite app_nil_r.
Qed.

Lemma extends_trans (a b c : State) : extends a b -> extends b c -> extends a c.
Proof.
  intros [c1 [e1 ->]] [c2 [e2 ->]]. exists c2, (e1 ++ e2)%list.
  unfold with_lastHealthStatus, with_trace; simpl. now rewrite app_assoc.
Qed.

Lemma fire_extends (gnm : IStorage -> NotificationManager) (tick : Tick) (s : State) :
  fst (fire gnm tick s) = Js.Normal tt /\ extends s (snd (fire gnm tick s)).
Proof.
  destruct tick as [runs|sample]; unfold fire.
  - rewrite performHealthChecks_run, processSettledResults_run.
    split; [reflexivity|]. eexists. eexists. reflexivity.
  - rewrite performMonitoring_run. split; [reflexivity|].
    exists (lastHealthStatus (this s)), (monitoringEvents sample).
    destruct s as [[st mi hi ar c] h]. reflexivity.
Qed.

Lemma fireAll_extends (gnm : IStorage -> NotificationManager)
    (ticks : list Tick) (s : State) :
  fst (fireAll gnm ticks s) = Js.Normal tt /\ extends s (snd (fireAll gnm ticks s)).
Proof.
  unfold fireAll. revert s. induction ticks as [|tick ticks IH]; intros s.
  - split; [reflexivity|apply extends_refl].
  - cbn [for_of]. unfold bind.
    destruct (fire_extends gnm tick s) as [Hfst Hext].
    destruct (fire gnm tick s) as [r s1]. cbn [fst snd] in *. subst r.
    destruct (IH s1) as [Hfst' Hext'].
    split; [exact Hfst'|]. eapply extends_trans; eassumption.
Qed.

(** X4.  No sequence of timer firings (health-check or
    general-monitoring, with any observations and any notification
    manager) ever throws, and none touches the timers: the two handles,
    the armed timers of the host, the alert rules and the storage stay as
    they were, and the trace only grows at its end.  In particular a
    monitor that is armed stays armed across its cycles. *)
Theorem firings_keep_the_timers
    (gnm : IStorage -> NotificationManager) (ticks : list Tick) (s : State) :
  let s' := snd (fireAll gnm ticks s) in
  fst (fireAll gnm ticks s) = Js.Normal tt /\
  monitoringInterval (this s') = monitoringInterval (this s) /\
  healthCheckInterval (this s') = healthCheckInterval (this s) /\
  alertRules (this s') = alertRules (this s) /\
  storage (this s') = storage (this s) /\
  timers (host s') = timers (host s) /\
  nextTimerId (host s') = nextTimerId (host s) /\
  (exists events, trace (host s') = (trace (host s) ++ events)%list).
Proof.
  intros s'. subst s'.
  destruct (fireAll_extends gnm ticks s) as [Hfst [cache [events ->]]].
  repeat match goal with |- _ /\ _ => split end; try reflexivity; try exact Hfst.
  now exists events.
Qed.

(** ** The last-known-status cache *)

Lemma keys_Map_set_present {V} (m : Js.Map V) (k : string) (v : V) :
  In k (keys m) -> keys (Js.Map_set m k v) = keys m.
Proof.
  induction m as [|[k0 v0] m IH]; simpl; [tauto|].
  intros Hin. destruct (String.eqb_spec k0 k) as [->|Hne]; [reflexivity|].
  simpl. f_equal. apply IH. destruct Hin; [congruence|assumption].
Qed.

Lemma keys_Map_set_absent {V} (m : Js.Map V) (k : string) (v : V) :
  ~ In k (keys m) -> keys (Js.Map_set m k v) = (keys m ++ [k])%list.
Proof.
  induction m as [|[k0 v0] m IH]; simpl; [reflexivity|].
  intros Hout. destruct (String.eqb_spec k0 k) as [->|Hne]; [tauto|].
  simpl. f_equal. apply IH. tauto.
Qed.

Lemma keys_Map_set_grow {V} (m : Js.Map V) (k : string) (v : V) :
  NoDup (keys m) ->
  NoDup (keys (Js.Map_set m k v)) /\
  exists new, keys (Js.Map_set m k v) = (keys m ++ new)%list.
Proof.
  intros Hnd. destruct (in_dec string_dec k (keys m)) as [Hin|Hout].
  - rewrite keys_Map_set_present by assumption. split; [assumption|].
    exists []. now rewrite app_nil_r.
  - rewrite keys_Map_set_absent by assumption. split.
    + apply NoDup_app; [assumption|repeat constructor; intros []|].
      intros x Hx [<-|[]]. contradiction.
    + now exists [k].
Qed.

Lemma cacheAll_keys (results : list (Js.PromiseSettledResult HealthCheckResult.t))
    (cache : Js.Map HealthCheckResult.t) :
  NoDup (keys cache) ->
  NoDup (keys (cacheAll results cache)) /\
  exists new, keys (cacheAll results cache) = (keys cache ++ new)%list.
Proof.
  revert cache. induction results as [|r results IH]; intros cache Hnd.
  - split; [assumption|]. exists []. now rewrite app_nil_r.
  - destruct r as [value|reason]; cbn [cacheAll]; [|now apply IH].
    destruct (keys_Map_set_grow cache (checkName value) value Hnd) as [Hnd' [new Hnew]].
    destruct (IH _ Hnd') as [Hnd'' [new' Hnew']].
    split; [assumption|]. exists (new ++ new')%list.
    now rewrite Hnew', Hnew, app_assoc.
Qed.

(** X5.  The cache holds at most one entry per check name and never
    loses one.  Starting from a cache without duplicate names, processing
    any list of settled results (whatever their names and statuses, and
    whatever the notification manager answers) leaves the cache without
    duplicate names, keeps the names it had in their positions, and adds
    new names at the end; the latest result of a name replaces the
    earlier one in place. *)
Theorem cache_has_one_entry_per_name
    (gnm : IStorage -> NotificationManager)
    (results : list (Js.PromiseSettledResult HealthCheckResult.t)) (s : State)
    (Hdistinct : NoDup (keys (lastHealthStatus (this s)))) :
  let cache' := lastHealthStatus (this (snd (processSettledResults gnm results s))) in
  NoDup (keys cache') /\
  (exists new, keys cache' = (keys (lastHealthStatus (this s)) ++ new)%list) /\
  (forall name, In name (keys cache') ->
     In name (keys (lastHealthStatus (this s))) \/
     exists value, In (Js.fulfilled value) results /\ checkName value = name) /\
  (forall value, In (Js.fulfilled value) results -> In (checkName value) (keys cache')).
Proof.
  intros cache'. subst cache'. rewrite processSettledResults_run.
  cbn [snd this with_lastHealthStatus lastHealthStatus].
  destruct (cacheAll_keys results _ Hdistinct) as [Hnd Hnew].
  split; [exact Hnd|]. split; [exact Hnew|]. split.
  - intros name Hin. unfold keys in Hin. apply in_map_iff in Hin.
    destruct Hin as [[k v] [Hk Hin]]. simpl in Hk. subst k.
    destruct (cacheAll_get results (lastHealthStatus (this s)) name)
      as [[latest [Hl [Hname _]]]|Hget].
    + right. now exists latest.
    + left. assert (Hsome : Js.Map_get (cacheAll results (lastHealthStatus (this s))) name
                            <> None).
      { clear -Hin. induction (cacheAll results (lastHealthStatus (this s)))
          as [|[k0 v0] m IH]; [destruct Hin|].
        simpl. destruct (String.eqb_spec k0 name) as [->|Hne]; [discriminate|].
        apply IH. destruct Hin as [Heq|Hin]; [congruence|assumption]. }
      rewrite Hget in Hsome. clear -Hsome.
      induction (lastHealthStatus (this s)) as [|[k0 v0] m IH]; [now elim Hsome|].
      simpl in *. destruct (String.eqb_spec k0 name) as [->|Hne]; [now left|].
      right. now apply IH.
  - intros value Hin.
    destruct (cacheAll_fulfilled results (lastHealthStatus (this s)) value Hin)
      as [latest [_ [_ Hget]]].
    clear -Hget. unfold keys.
    induction (cacheAll results (lastHealthStatus (this s))) as [|[k0 v0] m IH];
      [discriminate|].
    simpl in *. destruct (String.eqb_spec k0 (checkName value)) as [->|Hne];
      [now left|right; now apply IH].
Qed.

(** On the started monitor, the troubled cycle leaves four distinct names. *)
Lemma cache_has_one_entry_per_name_witness :
  NoDup (keys (lastHealthStatus
                 (this (snd (processSettledResults delivering
                               (startChecks troubledRuns) started))))).
Proof.
  exact (proj1 (cache_has_one_entry_per_name delivering (startChecks troubledRuns)
                  started (NoDup_nil string))).
Defined.








(** ** The life cycle *)

Lemma stopMonitoring_run (s : State) :
  stopMonitoring s =
  (Js.Normal tt,
   {| this := with_monitoringInterval None (with_healthCheckInterval None (this s));
      host := with_trace (trace (host s) ++ [stoppedLog])%list
                (with_timers
                   (disarm (monitoringInterval (this s))
                      (disarm (healthCheckInterval (this s)) (timers (host s))))
                   (nextTimerId (host s)) (host s)) |}).
Proof.
  destruct s as [[st mi hi ar c] [ts n clk tr]].
  destruct mi as [m|], hi as [h|]; reflexivity.
Qed.

Lemma shutdown_run (s : State) :
  shutdown s = (Js.Normal tt, emitted (snd (stopMonitoring s)) [shutdownLog]).
Proof.
  unfold shutdown, try_catch, bind. rewrite stopMonitoring_run. reflexivity.
Qed.

Lemma filter_fresh (ts : list Timer) (n k : nat) :
  Forall (fun t => (timerId (timeout t) < n)%nat) ts -> (n <= k)%nat ->
  filter (fun x => negb (Nat.eqb (timerId (timeout x)) k)) ts = ts.
Proof.
  intros Hfresh Hk. induction Hfresh as [|t ts Ht _ IH]; [reflexivity|].
  simpl. destruct (Nat.eqb_spec (timerId (timeout t)) k); [lia|].
  simpl. now rewrite IH.
Qed.

(** Awaiting [initialize] in one go, and leaving its second part to the
    job queue, come to the same. *)
Lemma initialize_split (s : State) :
  initialize s = initialize_after_await (snd (initialize_until_await s)) /\
  fst (initialize_until_await s) = Js.Normal tt.
Proof. destruct s as [[st mi hi ar c] [ts n clk tr]]. split; reflexivity. Qed.

Lemma constructor_arms (given : IStorage) (h : Host) :
  let constructed := snd (constructor given h) in
  let started := snd (initialize_after_await constructed) in
  fst (constructor given h) = Js.Normal tt /\
  this constructed = new_fields given /\
  timers (host constructed) = timers h /\
  nextTimerId (host constructed) = nextTimerId h /\
  fst (initialize_after_await constructed) = Js.Normal tt /\
  healthCheckInterval (this started) = Some {| timerId := nextTimerId h |} /\
  monitoringInterval (this started) = Some {| timerId := S (nextTimerId h) |} /\
  timers (host started) =
    ((timers h
      ++ [ {| timeout := {| timerId := nextTimerId h |};
              callback := tick_performHealthChecks;
              period := HEALTH_CHECK_INTERVAL |} ])
     ++ [ {| timeout := {| timerId := S (nextTimerId h) |};
             callback := tick_performMonitoring;
             period := MONITORING_INTERVAL |} ])%list /\
  nextTimerId (host started) = S (S (nextTimerId h)) /\
  lastHealthStatus (this started) = [] /\
  alertRules (this started) = [] /\
  storage (this started) = given.
Proof. destruct h as [ts n clk tr]. repeat split. Qed.

(** X7.  [new] returns before anything is armed: the monitor's timers are
    armed when [initialize] is resumed.  From then on, on a host whose
    armed timers all have handles older than the next one to be issued,
    letting any timer firings happen and shutting the monitor down leaves
    the host with exactly the timers it had before: the monitor's two
    timers are gone and no other timer is touched.  [shutdown] does not
    throw, clears both handles, keeps the cache, and [getSystemStatus]
    then reports both timers unarmed.  A [shutdown] that comes before
    [initialize] is resumed finds nothing to stop: the two timers are
    armed afterwards all the same, and stay. *)
Theorem shutdown_restores_timers
    (gnm : IStorage -> NotificationManager) (storage : IStorage) (h : Host)
    (ticks : list Tick) (Hfresh : handlesFresh h) :
  let constructed := snd (constructor storage h) in
  let started := snd (initialize_after_await constructed) in
  let worked := snd (fireAll gnm ticks started) in
  let stopped := snd (shutdown worked) in
  let early := snd (initialize_after_await (snd (shutdown constructed))) in
  timers (host constructed) = timers h /\
  monitoringInterval (this constructed) = None /\
  healthCheckInterval (this constructed) = None /\
  List.length (timers (host started)) = (List.length (timers h) + 2)%nat /\
  fst (shutdown worked) = Js.Normal tt /\
  timers (host stopped) = timers h /\
  monitoringInterval (this stopped) = None /\
  healthCheckInterval (this stopped) = None /\
  lastHealthStatus (this stopped) = lastHealthStatus (this worked) /\
  (exists status,
     getSystemStatus stopped = (Js.Normal status, stopped) /\
     monitoring status = false /\ healthChecks status = false) /\
  fst (shutdown constructed) = Js.Normal tt /\
  timers (host early) = timers (host started) /\
  monitoringInterval (this early) = monitoringInterval (this started) /\
  healthCheckInterval (this early) = healthCheckInterval (this started) /\
  (exists status,
     getSystemStatus early = (Js.Normal status, early) /\
     monitoring status = true /\ healthChecks status = true).
Proof.
  intros constructed started worked stopped early.
  assert (Hearly :
            fst (shutdown constructed) = Js.Normal tt /\
            timers (host early) = timers (host started) /\
            monitoringInterval (this early) = monitoringInterval (this started) /\
            healthCheckInterval (this early) = healthCheckInterval (this started) /\
            (exists status,
               getSystemStatus early = (Js.Normal status, early) /\
               monitoring status = true /\ healthChecks status = true)).
  { subst early started constructed. destruct h as [ts n clk tr].
    split; [reflexivity|]. split; [reflexivity|]. split; [reflexivity|].
    split; [reflexivity|]. eexists. split; [reflexivity|]. split; reflexivity. }
  subst early stopped worked.
  destruct (fireAll_extends gnm ticks started) as [_ [cache [events ->]]].
  rewrite shutdown_run, stopMonitoring_run. subst started constructed.
  destruct (constructor_arms storage h)
    as [_ [Hnew [Hts0 [_ [_ [Hh [Hm [Hts _]]]]]]]]. cbv zeta in *.
  revert Hearly.
  cbn [fst snd emitted this host with_trace with_timers with_monitoringInterval
       with_healthCheckInterval with_lastHealthStatus timers trace nextTimerId
       monitoringInterval healthCheckInterval lastHealthStatus].
  rewrite Hh, Hm, Hts, Hnew. unfold handlesFresh in Hfresh. intros Hearly.
  split; [exact Hts0|]. split; [reflexivity|]. split; [reflexivity|].
  split.
  { rewrite !length_app. simpl. lia. }
  split; [reflexivity|]. split.
  { unfold disarm. cbn [timerId]. rewrite !filter_app. cbn [filter timerId timeout].
    rewrite Nat.eqb_refl.
    destruct (Nat.eqb_spec (S (nextTimerId h)) (nextTimerId h)) as [Hbad|_]; [lia|].
    cbn [negb app]. rewrite ?filter_app. cbn [filter timerId timeout].
    rewrite ?Nat.eqb_refl. cbn [negb filter app].
    rewrite (filter_fresh _ _ (nextTimerId h) Hfresh (le_n _)).
    rewrite (filter_fresh _ _ (S (nextTimerId h)) Hfresh (le_S _ _ (le_n _))).
    now rewrite ?app_nil_r. }
  split; [reflexivity|]. split; [reflexivity|]. split; [reflexivity|].
  split; [eexists; split; [reflexivity|]; split; reflexivity|].
  exact Hearly.
Qed.

(** A host with one foreign timer: after the monitor has come, started
    and gone, that timer is the only one left. *)
Lemma shutdown_restores_timers_witness :
  timers
    (host (snd (shutdown
                  (snd (fireAll delivering
                          [ healthCheckTick troubledRuns;
                            monitoringTick (Js.Throw {| Js.message := "no sample" |}) ]
                          (snd (initialize_after_await
                                  (snd (constructor storage0
                                          {| timers := [ {| timeout := {| timerId := 0 |};
                                                            callback := tick_performMonitoring;
                                                            period := 1000 |} ];
                                             nextTimerId := 1; now := 0;
                                             trace := [] |})))))))))
  = [ {| timeout := {| timerId := 0 |};
         callback := tick_performMonitoring;
         period := 1000 |} ].
Proof.
  refine (proj1 (proj2 (proj2 (proj2 (proj2 (proj2
            (shutdown_restores_timers delivering storage0
               {| timers := [ {| timeout := {| timerId := 0 |};
                                 callback := tick_performMonitoring;
                                 period := 1000 |} ];
                  nextTimerId := 1; now := 0; trace := [] |}
               [ healthCheckTick troubledRuns;
                 monitoringTick (Js.Throw {| Js.message := "no sample" |}) ]
               _))))))).
  repeat constructor.
Defined.

(** ** The shared instance *)

(** X8.  [getSystemHealthMonitor] constructs a monitor on the first call
    only, and returns it as [new] leaves it: no timer is armed yet and
    both handles are null; the two timers are armed once [initialize] is
    resumed on the instance.  A later call, before or after that, returns
    the same instance and leaves the process as it is: it arms no further
    timer and ignores the storage it is given, so the instance keeps the
    storage of the first call. *)
Theorem getSystemHealthMonitor_is_shared
    (first later : IStorage) (p : Process) :
  let once := getSystemHealthMonitor first p in
  let again := getSystemHealthMonitor later (snd once) in
  let settled := snd (onInstance initialize_after_await (snd once)) in
  let afterwards := getSystemHealthMonitor later settled in
  fst again = fst once /\
  snd again = snd once /\
  systemHealthMonitor (snd once) = Some (fst once) /\
  (systemHealthMonitor p = None ->
     storage (fst once) = first /\
     healthCheckInterval (fst once) = None /\
     monitoringInterval (fst once) = None /\
     timers (processHost (snd once)) = timers (processHost p) /\
     fst (onInstance initialize_after_await (snd once)) = Some (Js.Normal tt) /\
     snd afterwards = settled /\
     systemHealthMonitor settled = Some (fst afterwards) /\
     storage (fst afterwards) = first /\
     healthCheckInterval (fst afterwards) <> None /\
     monitoringInterval (fst afterwards) <> None /\
     List.length (timers (processHost (snd afterwards)))
     = (List.length (timers (processHost p)) + 2)%nat) /\
  (forall existing, systemHealthMonitor p = Some existing ->
     fst once = existing /\ snd once = p).
Proof.
  unfold getSystemHealthMonitor, onInstance.
  destruct p as [[existing|] h]; cbn [systemHealthMonitor processHost fst snd].
  - split; [reflexivity|]. split; [reflexivity|]. split; [reflexivity|].
    split; [discriminate|]. intros e He. inversion He. now split.
  - destruct h as [ts n clk tr].
    split; [reflexivity|]. split; [reflexivity|]. split; [reflexivity|].
    split; [|discriminate].
    intros _. repeat match goal with |- _ /\ _ => split end;
      try reflexivity; try discriminate.
    cbn. rewrite !length_app. simpl. lia.
Qed.

(** Two calls with different storages on a process without a monitor,
    with [initialize] resumed in between: the second returns the monitor
    that holds the first storage. *)
Lemma getSystemHealthMonitor_is_shared_witness :
  storage
    (fst (getSystemHealthMonitor {| storageHandle := 7 |}
            (snd (onInstance initialize_after_await
                    (snd (getSystemHealthMonitor storage0
                            {| systemHealthMonitor := None; processHost := host0 |}))))))
  = storage0.
Proof.
  pose proof (getSystemHealthMonitor_is_shared storage0 {| storageHandle := 7 |}
                {| systemHealthMonitor := None; processHost := host0 |}) as H.
  cbv zeta in H.
  destruct H as [_ [_ [_ [H _]]]].
  destruct (H eq_refl) as [_ [_ [_ [_ [_ [_ [_ [Hstorage _]]]]]]]].
  exact Hstorage.
Defined.

(** ** Probes and the registered checks *)

(** X9.  The four results of a cycle are, in order, results of the four
    registered default checks: each carries the English and Arabic name
    of its registered check, and the check type that [getCheckType]
    derives from the name, which [processHealthCheckResult] puts in the
    row it builds, is the registered type. *)
Theorem results_match_registered_checks
    (runs : HealthCheckRuns) (last_check_time : Z) :
  Forall2
    (fun r d =>
       checkName r = DefaultHealthCheck.check_name d /\
       checkName_ar r = DefaultHealthCheck.check_name_ar d /\
       InsertSystemHealthCheck.check_type (healthCheckData r last_check_time)
       = DefaultHealthCheck.check_type d /\
       InsertSystemHealthCheck.status (healthCheckData r last_check_time) = status r /\
       InsertSystemHealthCheck.last_error (healthCheckData r last_check_time) = error r)
    (cycleResults runs) defaultChecks.
Proof.
  unfold cycleResults, startChecks, checkDatabaseConnection, checkDatabasePerformance,
    checkSystemMemory, checkSystemHealth.
  destruct (awaited (databaseConnection runs)) as [rows|e1];
    destruct (awaited (databasePerformance runs)) as [[rows1 rows2]|e2];
    destruct (awaited (systemMemory runs)) as [mem|e3];
    destruct (awaited (systemHealth runs)) as [info|e4];
    repeat constructor.
Qed.

Lemma classifyBy_monotone (th : Thresholds.t) (d1 d2 : Z) :
  Thresholds.warning th <= Thresholds.critical th -> d1 <= d2 ->
  (rank (classifyBy th d1) <= rank (classifyBy th d2))%nat.
Proof.
  intros Hth Hd. unfold classifyBy.
  destruct (Z.ltb_spec (Thresholds.critical th) d1);
    destruct (Z.ltb_spec (Thresholds.critical th) d2);
    destruct (Z.ltb_spec (Thresholds.warning th) d1);
    destruct (Z.ltb_spec (Thresholds.warning th) d2);
    simpl; lia.
Qed.

(** X10.  The cut-offs written in the probes are the thresholds
    registered for their names in the table of default checks: when its
    host call returns, the connection probe and the performance probe
    classify the measured duration, and the memory probe the usage
    percentage, as critical above the registered [critical], warning
    above the registered [warning], and healthy otherwise. *)
Theorem probes_use_registered_thresholds :
  (forall run rows, awaited run = Js.Normal rows ->
     exists r th,
       checkDatabaseConnection run = Js.fulfilled r /\
       registeredThresholds (checkName r) = Some th /\
       status r = classifyBy th (duration r)) /\
  (forall run rows, awaited run = Js.Normal rows ->
     exists r th,
       checkDatabasePerformance run = Js.fulfilled r /\
       registeredThresholds (checkName r) = Some th /\
       status r = classifyBy th (duration r)) /\
  (forall run memoryUsage, awaited run = Js.Normal memoryUsage ->
     exists r th,
       checkSystemMemory run = Js.fulfilled r /\
       registeredThresholds (checkName r) = Some th /\
       status r = classifyNumberBy th (usagePercent memoryUsage)).
Proof.
  split; [|split].
  - intros run rows Hrun. unfold checkDatabaseConnection. rewrite Hrun.
    eexists. eexists. split; [reflexivity|]. split; reflexivity.
  - intros run [rows1 rows2] Hrun. unfold checkDatabasePerformance. rewrite Hrun.
    eexists. eexists. split; [reflexivity|]. split; reflexivity.
  - intros run mem Hrun. unfold checkSystemMemory. rewrite Hrun.
    eexists. eexists. split; [reflexivity|]. split; reflexivity.
Qed.

(** A round trip of seven seconds against the registered 1000/5000 ms. *)
Lemma probes_use_registered_thresholds_witness :
  exists r th,
    checkDatabaseConnection slowDatabase = Js.fulfilled r /\
    registeredThresholds (checkName r) = Some th /\
    status r = classifyBy th (duration r).
Proof.
  exact (proj1 probes_use_registered_thresholds slowDatabase [] eq_refl).
Defined.

(** X11.  The liveness probe does not apply the thresholds registered
    for it (warning 1000 ms, critical 3000 ms): whenever the process
    information can be read its status is healthy, whatever time the
    probe took; it is critical only when reading throws. *)
Theorem checkSystemHealth_ignores_duration (run : Run ProcessInfo) :
  exists r th,
    checkSystemHealth run = Js.fulfilled r /\
    duration r = endTime run - startTime run /\
    registeredThresholds (checkName r) = Some th /\
    Thresholds.warning th = 1000 /\ Thresholds.critical th = 3000 /\
    match awaited run with
    | Js.Normal _ => status r = Status.healthy /\ error r = None
    | Js.Throw e => status r = Status.critical /\ error r = Some (Js.message e)
    end.
Proof.
  unfold checkSystemHealth.
  destruct (awaited run) as [info|e]; eexists; eexists;
    repeat split; reflexivity.
Qed.

(** X12.  For the two database probes a slower answer never gets a
    better status: of two runs whose queries return, the one with the
    longer measured duration is classified at least as badly (healthy,
    then warning, then critical). *)
Theorem database_status_monotone :
  (forall run1 run2 rows1 rows2,
     awaited run1 = Js.Normal rows1 -> awaited run2 = Js.Normal rows2 ->
     endTime run1 - startTime run1 <= endTime run2 - startTime run2 ->
     exists s1 s2,
       statusOf (checkDatabaseConnection run1) = Some s1 /\
       statusOf (checkDatabaseConnection run2) = Some s2 /\
       (rank s1 <= rank s2)%nat) /\
  (forall run1 run2 rows1 rows2,
     awaited run1 = Js.Normal rows1 -> awaited run2 = Js.Normal rows2 ->
     endTime run1 - startTime run1 <= endTime run2 - startTime run2 ->
     exists s1 s2,
       statusOf (checkDatabasePerformance run1) = Some s1 /\
       statusOf (checkDatabasePerformance run2) = Some s2 /\
       (rank s1 <= rank s2)%nat).
Proof.
  split.
  - intros run1 run2 rows1 rows2 H1 H2 Hd.
    unfold checkDatabaseConnection. rewrite H1, H2.
    eexists. eexists. split; [reflexivity|]. split; [reflexivity|].
    apply (classifyBy_monotone
             {| Thresholds.warning := 1000; Thresholds.critical := 5000;
                Thresholds.unit := "ms" |}); [simpl; lia|exact Hd].
  - intros run1 run2 [a1 b1] [a2 b2] H1 H2 Hd.
    unfold checkDatabasePerformance. rewrite H1, H2.
    eexists. eexists. split; [reflexivity|]. split; [reflexivity|].
    apply (classifyBy_monotone
             {| Thresholds.warning := 500; Thresholds.critical := 2000;
                Thresholds.unit := "ms" |}); [simpl; lia|exact Hd].
Qed.

(** A fast and a slow connection check. *)
Lemma database_status_monotone_witness :
  exists s1 s2,
    statusOf (checkDatabaseConnection
                {| startTime := 0; awaited := Js.Normal []; endTime := 200 |}) = Some s1 /\
    statusOf (checkDatabaseConnection slowDatabase) = Some s2 /\
    (rank s1 <= rank s2)%nat.
Proof.
  refine (proj1 database_status_monotone
            {| startTime := 0; awaited := Js.Normal []; endTime := 200 |}
            slowDatabase [] [] eq_refl eq_refl _).
  simpl. lia.
Defined.

(** X13.  Every cycle yields exactly four results, and each is
    well-formed: a result that carries an error is critical or unknown
    (never healthy or warning); an unknown status comes only from the
    memory probe and always with an error; a result without an error has
    details, and a result with an error has none except the connection
    probe's [connected: false]. *)
Theorem cycle_results_well_formed (runs : HealthCheckRuns) :
  List.length (cycleResults runs) = 4%nat /\
  forall r, In r (cycleResults runs) ->
    (error r <> None -> status r = Status.critical \/ status r = Status.unknown) /\
    (status r = Status.unknown -> checkName r = "Memory Usage" /\ error r <> None) /\
    (error r = None -> details r <> []) /\
    (error r <> None ->
       details r = [] \/
       (checkName r = "Database Connection" /\
        details r = [("connected", Js.boolean false)])).
Proof.
  unfold cycleResults, startChecks, checkDatabaseConnection, checkDatabasePerformance,
    checkSystemMemory, checkSystemHealth.
  destruct (awaited (databaseConnection runs)) as [rows|e1];
    destruct (awaited (databasePerformance runs)) as [[rows1 rows2]|e2];
    destruct (awaited (systemMemory runs)) as [mem|e3];
    destruct (awaited (systemHealth runs)) as [info|e4];
    (split; [reflexivity|]);
    intros r [<-|[<-|[<-|[<-|[]]]]]; cbn [error status details checkName];
    (split; [|split; [|split]]); intros H;
    repeat match type of H with
           | context [if ?b then _ else _] => destruct b
           end;
    try congruence; try discriminate; auto;
    try (split; [reflexivity|discriminate]).
Qed.

(** ** Check names *)

Lemma prefix_app (sub after : string) : String.prefix sub (sub ++ after) = true.
Proof.
  induction sub as [|a sub IH]; simpl; [now destruct after|].
  destruct (ascii_dec a a); [exact IH|congruence].
Qed.

Lemma prefix_split (sub s : string) :
  String.prefix sub s = true -> exists after, s = sub ++ after.
Proof.
  revert s. induction sub as [|a sub IH]; intros s H.
  - now exists s.
  - destruct s as [|b s]; simpl in H; [discriminate|].
    destruct (ascii_dec a b) as [->|]; [|discriminate].
    destruct (IH s H) as [after ->]. now exists after.
Qed.

Lemma includes_contains (s sub : string) :
  Js.includes s sub = true <-> contains s sub.
Proof.
  split.
  - induction s as [|a s IH]; cbn [Js.includes]; intros H.
    + destruct (String.prefix sub "") eqn:Hp; [|discriminate].
      destruct (prefix_split _ _ Hp) as [after Hafter].
      exists "", after. exact Hafter.
    + destruct (String.prefix sub (String a s)) eqn:Hp.
      * destruct (prefix_split _ _ Hp) as [after Hafter].
        exists "", after. exact Hafter.
      * destruct (IH H) as [before [after ->]].
        now exists (String a before), after.
  - intros [before [after ->]]. induction before as [|a before IH].
    + change ("" ++ sub ++ after) with (sub ++ after).
      pose proof (prefix_app sub after) as Hp.
      destruct (sub ++ after); cbn [Js.includes]; now rewrite Hp.
    + change (String a before ++ sub ++ after)
        with (String a (before ++ sub ++ after)).
      cbn [Js.includes]. rewrite IH.
      now destruct (String.prefix sub (String a (before ++ sub ++ after))).
Qed.

Lemma includes_false (s sub : string) :
  Js.includes s sub = false <-> ~ contains s sub.
Proof.
  rewrite <- includes_contains. destruct (Js.includes s sub); split; congruence.
Qed.

(** X14.  [getCheckType] goes by the first of "Database", "Memory" and
    "API" that occurs anywhere in the check name, in that order of
    precedence, and is "system" exactly when none occurs: the type is
    "database" exactly for names containing "Database"; "memory" exactly
    for names containing "Memory" but not "Database"; "api" exactly for
    names containing "API" but neither of the others. *)
Theorem getCheckType_by_substring (checkName : string) :
  (getCheckType checkName = "database" <-> contains checkName "Database") /\
  (getCheckType checkName = "memory" <->
     ~ contains checkName "Database" /\ contains checkName "Memory") /\
  (getCheckType checkName = "api" <->
     ~ contains checkName "Database" /\ ~ contains checkName "Memory" /\
     contains checkName "API") /\
  (getCheckType checkName = "system" <->
     ~ contains checkName "Database" /\ ~ contains checkName "Memory" /\
     ~ contains checkName "API").
Proof.
  unfold getCheckType.
  rewrite <- !includes_false, <- !includes_contains.
  destruct (Js.includes checkName "Database"),
           (Js.includes checkName "Memory"),
           (Js.includes checkName "API");
    repeat split; intros; try discriminate;
    repeat match goal with H : _ /\ _ |- _ => destruct H end;
    try discriminate; reflexivity.
Qed.

(** X15.  The suggested actions depend only on whether the check name
    contains "Database" and whether it contains "Memory": the two
    database actions, then the two memory actions, each group present
    exactly when its word occurs; none when neither occurs.  Every
    suggested action has a priority between 1 and 3 and a description,
    and the synthesized alert carries exactly this list. *)
Theorem getSuggestedActions_by_substring (result : HealthCheckResult.t) :
  let actions := getSuggestedActions result in
  let database := ["check_database_connections"; "restart_database_service"] in
  let memory := ["check_memory_usage"; "restart_application"] in
  (contains (checkName result) "Database" -> contains (checkName result) "Memory" ->
     map SuggestedAction.action actions = (database ++ memory)%list) /\
  (contains (checkName result) "Database" -> ~ contains (checkName result) "Memory" ->
     map SuggestedAction.action actions = database) /\
  (~ contains (checkName result) "Database" -> contains (checkName result) "Memory" ->
     map SuggestedAction.action actions = memory) /\
  (~ contains (checkName result) "Database" -> ~ contains (checkName result) "Memory" ->
     actions = []) /\
  Forall (fun a => 1 <= SuggestedAction.priority a <= 3 /\
                   SuggestedAction.description a <> None) actions /\
  SmartAlert.suggested_actions (healthAlert result) = Some actions.
Proof.
  cbv zeta.
  split; [|split; [|split; [|split; [|split; [|reflexivity]]]]];
    unfold getSuggestedActions;
    rewrite <- ?includes_false, <- ?includes_contains;
    destruct (Js.includes (checkName result) "Database"),
             (Js.includes (checkName result) "Memory");
    try (intros; (discriminate || reflexivity));
    try (repeat constructor; simpl; (lia || discriminate)).
Qed.

(** The connection probe gets the database actions only. *)
Lemma getSuggestedActions_by_substring_witness :
  map SuggestedAction.action (getSuggestedActions slowDatabaseResult)
  = ["check_database_connections"; "restart_database_service"].
Proof.
  refine (proj1 (proj2 (getSuggestedActions_by_substring slowDatabaseResult)) _ _).
  - exists "", " Connection". reflexivity.
  - apply includes_false. reflexivity.
Defined.

(** ** The text of a health alert *)

(** X16.  The message of a health alert is the error of the result when
    there is a non-empty one, in both languages alike, and otherwise (no
    error, or an empty error text) the sentence built from the check
    name and the status.  The notification shows the Arabic title and
    message, so an error text is shown verbatim.  The alert requires
    action exactly for a critical status, names the check as its source
    id, carries the details as context, and targets no user. *)
Theorem healthAlert_text (result : HealthCheckResult.t) :
  let alert := healthAlert result in
  (forall m, error result = Some m -> m <> "" ->
     SmartAlert.message alert = m /\ SmartAlert.message_ar alert = m) /\
  (error result = None \/ error result = Some "" ->
     SmartAlert.message alert =
       checkName result ++ " is in " ++ Status.toString (status result) ++ " state" /\
     SmartAlert.message_ar alert =
       checkName_ar result ++ " في حالة " ++ Status.toString (status result)) /\
  SmartAlert.title alert = "System Health Issue: " ++ checkName result /\
  (SmartAlert.requires_action alert = true <-> status result = Status.critical) /\
  SmartAlert.source_id alert = Some (checkName result) /\
  SmartAlert.context_data alert = Some (details result) /\
  SmartAlert.target_users alert = None /\
  (forall recipient_type recipient,
     NotificationData.title (notification alert recipient_type recipient)
     = SmartAlert.title_ar alert /\
     NotificationData.message (notification alert recipient_type recipient)
     = SmartAlert.message_ar alert /\
     NotificationData.context_id (notification alert recipient_type recipient)
     = Some (checkName result)).
Proof.
  cbv zeta. unfold healthAlert.
  cbn [SmartAlert.message SmartAlert.message_ar SmartAlert.title
       SmartAlert.requires_action SmartAlert.source_id SmartAlert.context_data
       SmartAlert.target_users].
  split; [|split; [|split; [|split; [|split; [|split; [|split]]]]]].
  - intros m Hm Hne. rewrite Hm. unfold Js.or_string.
    destruct (String.eqb_spec m ""); [contradiction|now split].
  - intros [H|H]; rewrite H; now split.
  - reflexivity.
  - destruct (status result); simpl; split; congruence.
  - reflexivity.
  - reflexivity.
  - reflexivity.
  - intros rt r. repeat split.
Qed.

(** The failed heap sampling, had it been alerted, would read as its
    error text. *)
Lemma healthAlert_text_witness :
  SmartAlert.message_ar (healthAlert failedSamplingResult) = "memoryUsage failed".
Proof.
  refine (proj2 (proj1 (healthAlert_text failedSamplingResult)
                   "memoryUsage failed" eq_refl _)).
  discriminate.
Defined.

(** ** Recipient identifiers *)

(** What [toString()] prints for integers beyond 2^53: the digits of the
    nearest number, zeros up to 21 digits, exponent form from 10^21. *)
Example Z_toString_beyond_2_53 :
  map Js.Z_toString
    [ 2 ^ 53 + 1; 2 ^ 53 + 2; 2 ^ 53 + 3; 2 ^ 64; 123456789012345678901;
      10 ^ 21 - 1; 10 ^ 21; 2 ^ 70; 10 ^ 23; - (2 ^ 53 + 1); 2 ^ 1024 ]
  = [ "9007199254740992"; "9007199254740994"; "9007199254740996";
      "18446744073709552000"; "123456789012345680000";
      "1e+21"; "1e+21"; "1.1805916207174113e+21"; "1e+23";
      "-9007199254740992"; "Infinity" ].
Proof. vm_compute. reflexivity. Qed.

(** Up to 2^53 the shortest digits of a number are its decimal digits. *)
Example Number_digits_up_to_2_53 :
  map Js.Number_digits
    [ 0; 1; 2; -7; 10; 1200; 4503599627370497; 2 ^ 53 - 1; 2 ^ 53; - (2 ^ 53) ]
  = map Js.decimal
    [ 0; 1; 2; -7; 10; 1200; 4503599627370497; 2 ^ 53 - 1; 2 ^ 53; - (2 ^ 53) ].
Proof. vm_compute. reflexivity. Qed.

(** X17.  The [recipient_id] of a payload is [toString()] of the numeric
    id.  For an id that a number holds as it is (up to 2^53 in magnitude)
    it is the decimal rendering of the id: reading it back gives the id,
    so two such roles or users never get the same [recipient_id].  Beyond
    that range the text is that of the nearest number: 2^53 + 1 gets the
    [recipient_id] of 2^53, and 10^21 is written in exponent form. *)
Theorem recipient_id_round_trip (alert : SmartAlert.t)
    (recipient_type : RecipientType.t) (recipient : Z)
    (Hsafe : Z.abs recipient <= 2 ^ 53) :
  parseId (NotificationData.recipient_id (notification alert recipient_type recipient))
  = Some recipient /\
  (forall other,
     Z.abs other <= 2 ^ 53 ->
     NotificationData.recipient_id (notification alert recipient_type other)
     = NotificationData.recipient_id (notification alert recipient_type recipient) ->
     other = recipient) /\
  NotificationData.recipient_id (notification alert recipient_type (2 ^ 53 + 1))
  = NotificationData.recipient_id (notification alert recipient_type (2 ^ 53)) /\
  NotificationData.recipient_id (notification alert recipient_type (10 ^ 21))
  = "1e+21".
Proof.
  assert (Hparse : forall z, Z.abs z <= 2 ^ 53 -> parseId (Js.Z_toString z) = Some z).
  { intros z Hz. unfold Js.Z_toString. apply Z.leb_le in Hz. rewrite Hz.
    unfold parseId, Js.decimal. rewrite NilZero.isi.
    - simpl. now rewrite DecimalZ.of_to.
    - destruct z; simpl; try discriminate.
      intros H. injection H as H. now apply DecimalPos.Unsigned.to_uint_nonnil in H.
    - destruct z; simpl; try discriminate.
      intros H. injection H as H. now apply DecimalPos.Unsigned.to_uint_nonnil in H. }
  cbn [notification NotificationData.recipient_id].
  split; [now apply Hparse|]. split; [|split].
  - intros other Hother Heq. apply (f_equal parseId) in Heq.
    rewrite !Hparse in Heq by assumption. congruence.
  - vm_compute. reflexivity.
  - vm_compute. reflexivity.
Qed.

(** Role 2 is read back from the payload sent to it. *)
Lemma recipient_id_round_trip_witness :
  parseId (NotificationData.recipient_id
             (notification (healthAlert slowDatabaseResult) RecipientType.role 2))
  = Some 2.
Proof.
  refine (proj1 (recipient_id_round_trip (healthAlert slowDatabaseResult)
                   RecipientType.role 2 _)).
  vm_compute. discriminate.
Defined.

(** ** Edge cases of the probes *)

Lemma div_zero_above_95 (used : float) :
  (0 <? used)%float = true -> (95 <? used / 0 * 100)%float = true.
Proof.
  intros Hpos. rewrite ltb_spec in Hpos. rewrite ltb_spec, mul_spec, div_spec.
  change (Prim2SF 0) with (S754_zero false) in *.
  destruct (Prim2SF used) as [s|s| |s m e]; try destruct s; try discriminate Hpos;
    reflexivity.
Qed.

Lemma zero_by_zero_not_above (used : float) :
  (used =? 0)%float = true ->
  (80 <? used / 0 * 100)%float = false /\ (95 <? used / 0 * 100)%float = false.
Proof.
  intros Hz. rewrite eqb_spec in Hz. rewrite !ltb_spec, !mul_spec, !div_spec.
  change (Prim2SF 0) with (S754_zero false) in *.
  destruct (Prim2SF used) as [s|s| |s m e]; try destruct s; try discriminate Hz;
    split; reflexivity.
Qed.

(** X18.  The memory probe does not guard the division by the heap
    total.  With a heap total of zero it still yields a result and
    records no error: any positive heap used gives an infinite
    percentage and the status critical, and a heap used of zero gives no
    number at all and the status healthy. *)
Theorem checkSystemMemory_zero_heap_total (run : Run MemoryUsage)
    (memoryUsage : MemoryUsage)
    (Hrun : awaited run = Js.Normal memoryUsage)
    (Htotal : heapTotal memoryUsage = 0%float) :
  exists r,
    checkSystemMemory run = Js.fulfilled r /\
    error r = None /\
    ((0 <? heapUsed memoryUsage)%float = true -> status r = Status.critical) /\
    ((heapUsed memoryUsage =? 0)%float = true -> status r = Status.healthy).
Proof.
  unfold checkSystemMemory. rewrite Hrun, Htotal.
  eexists. split; [reflexivity|]. cbn [error status]. split; [reflexivity|]. split.
  - intros Hpos. now rewrite (div_zero_above_95 _ Hpos).
  - intros Hz. destruct (zero_by_zero_not_above _ Hz) as [H80 H95].
    now rewrite H95, H80.
Qed.

(** A heap of size zero with a megabyte in use is reported critical. *)
Lemma checkSystemMemory_zero_heap_total_witness :
  exists r,
    checkSystemMemory
      {| startTime := 0;
         awaited := Js.Normal {| heapTotal := 0; heapUsed := 1048576; external := 0 |};
         endTime := 0 |} = Js.fulfilled r /\
    status r = Status.critical.
Proof.
  destruct (checkSystemMemory_zero_heap_total
              {| startTime := 0;
                 awaited := Js.Normal {| heapTotal := 0; heapUsed := 1048576;
                                         external := 0 |};
                 endTime := 0 |}
              {| heapTotal := 0; heapUsed := 1048576; external := 0 |}
              eq_refl eq_refl) as [r [Hr [_ [Hcritical _]]]].
  exists r. split; [exact Hr|]. apply Hcritical. reflexivity.
Defined.

(** X19.  The performance probe tolerates missing query data.  When the
    first query returns no row, or a first row in which the
    [active_connections] column is absent or falsy, the active
    connections are reported as 0; otherwise the column's value is
    reported unchanged.  When the second query returns no row, the
    database size is reported as undefined.  None of this throws or
    records an error, and the status depends on the duration alone. *)
Theorem checkDatabasePerformance_missing_rows
    (run : Run (list Js.Object * list Js.Object))
    (activeConnections dbSize : list Js.Object)
    (Hrun : awaited run = Js.Normal (activeConnections, dbSize)) :
  exists r,
    checkDatabasePerformance run = Js.fulfilled r /\
    error r = None /\
    status r = classifyBy {| Thresholds.warning := 500; Thresholds.critical := 2000;
                             Thresholds.unit := "ms" |} (duration r) /\
    (activeConnections = [] -> Js.get (details r) "activeConnections" = Js.int 0) /\
    (forall row rest, activeConnections = row :: rest ->
       Js.get (details r) "activeConnections" =
       if Js.truthy (Js.get row "active_connections")
       then Js.get row "active_connections" else Js.int 0) /\
    (forall row rest, activeConnections = row :: rest ->
       Js.getOwn row "active_connections" = None ->
       Js.get (details r) "activeConnections" = Js.int 0) /\
    (dbSize = [] -> Js.get (details r) "databaseSize" = Js.undefined) /\
    Js.get (details r) "queryTime" = Js.int (duration r).
Proof.
  unfold checkDatabasePerformance. rewrite Hrun.
  eexists. split; [reflexivity|]. cbn [error status duration details].
  split; [reflexivity|]. split; [reflexivity|].
  split; [intros ->; reflexivity|].
  split; [intros row rest ->; reflexivity|].
  split; [|split; [intros ->; reflexivity|reflexivity]].
  intros row rest -> Hown. unfold Js.get at 1. cbn [Js.getOwn String.eqb].
  cbn. unfold Js.or, Js.get. rewrite Hown. reflexivity.
Qed.

(** Both queries answering with no row at all. *)
Lemma checkDatabasePerformance_missing_rows_witness :
  exists r,
    checkDatabasePerformance
      {| startTime := 0; awaited := Js.Normal ([], []); endTime := 10 |}
    = Js.fulfilled r /\
    Js.get (details r) "activeConnections" = Js.int 0 /\
    Js.get (details r) "databaseSize" = Js.undefined.
Proof.
  destruct (checkDatabasePerformance_missing_rows
              {| startTime := 0; awaited := Js.Normal ([], []); endTime := 10 |}
              [] [] eq_refl) as [r [Hr [_ [_ [Hcount [_ [_ [Hsize _]]]]]]]].
  exists r. split; [exact Hr|]. split; [now apply Hcount|now apply Hsize].
Defined.

(** ** What the timers can send *)

Lemma fire_trace (gnm : IStorage -> NotificationManager) (tick : Tick) (s : State) :
  trace (host (snd (fire gnm tick s)))
  = (trace (host s) ++ tickEvents (gnm (storage (this s))) tick)%list /\
  storage (this (snd (fire gnm tick s))) = storage (this s).
Proof.
  destruct tick as [runs|sample]; unfold fire, tickEvents.
  - rewrite performHealthChecks_run, processSettledResults_run. now split.
  - rewrite performMonitoring_run. now split.
Qed.

Lemma fireAll_cons (gnm : IStorage -> NotificationManager)
    (tick : Tick) (ticks : list Tick) (s : State) :
  fireAll gnm (tick :: ticks) s = fireAll gnm ticks (snd (fire gnm tick s)).
Proof.
  unfold fireAll. cbn [for_of]. unfold bind.
  destruct (fire_extends gnm tick s) as [Hfst _].
  destruct (fire gnm tick s) as [r s1]. cbn [fst snd] in *. now subst r.
Qed.

Lemma fireAll_trace (gnm : IStorage -> NotificationManager)
    (ticks : list Tick) (s : State) :
  trace (host (snd (fireAll gnm ticks s)))
  = (trace (host s) ++ flat_map (tickEvents (gnm (storage (this s)))) ticks)%list.
Proof.
  revert s. induction ticks as [|tick ticks IH]; intros s.
  - cbn. now rewrite app_nil_r.
  - rewrite fireAll_cons, IH. destruct (fire_trace gnm tick s) as [-> ->].
    cbn [flat_map]. now rewrite app_assoc.
Qed.

Lemma attempted_length (nm : NotificationManager) (plan : list Event.t) :
  (List.length (fst (attempted nm plan)) <= List.length plan)%nat.
Proof.
  destruct (attempted_prefix nm plan) as [rest Hplan].
  rewrite Hplan at 2. rewrite length_app. lia.
Qed.

Lemma resultEvents_bounded (nm : NotificationManager)
    (r : Js.PromiseSettledResult HealthCheckResult.t) :
  Forall lineOrAdminCall (resultEvents nm r) /\
  (List.length (filter isDispatch (resultEvents nm r))
   <= 2 * List.length (filter isAlertCreated (resultEvents nm r)))%nat.
Proof.
  destruct r as [value|reason]; cbn [resultEvents].
  - destruct (isBad value).
    + split.
      * unfold alertEvents. constructor; [exact I|]. apply Forall_app. split.
        -- apply Forall_forall. intros e He. apply attempted_incl in He.
           rewrite healthAlert_plan in He.
           destruct He as [<-|[<-|[]]]; simpl; auto.
        -- destruct (snd (attempted nm (dispatchPlan (healthAlert value))));
             repeat constructor.
      * rewrite alertEvents_dispatches, alertEvents_created.
        pose proof (attempted_length nm (dispatchPlan (healthAlert value))) as H.
        rewrite healthAlert_plan in H at 2. simpl in H. simpl. lia.
    + split; [constructor|simpl; lia].
  - split; [repeat constructor|simpl; lia].
Qed.

Lemma tickEvents_bounded (nm : NotificationManager) (ticks : list Tick) :
  Forall lineOrAdminCall (flat_map (tickEvents nm) ticks) /\
  (List.length (filter isDispatch (flat_map (tickEvents nm) ticks))
   <= 2 * List.length (filter isAlertCreated (flat_map (tickEvents nm) ticks)))%nat.
Proof.
  assert (Hresults : forall results,
             Forall lineOrAdminCall (flat_map (resultEvents nm) results) /\
             (List.length (filter isDispatch (flat_map (resultEvents nm) results))
              <= 2 * List.length (filter isAlertCreated
                                    (flat_map (resultEvents nm) results)))%nat).
  { induction results as [|r results [IH1 IH2]]; [split; [constructor|simpl; lia]|].
    cbn [flat_map]. destruct (resultEvents_bounded nm r) as [H1 H2]. split.
    - apply Forall_app. now split.
    - rewrite !filter_app, !length_app. lia. }
  induction ticks as [|tick ticks [IH1 IH2]]; [split; [constructor|simpl; lia]|].
  cbn [flat_map].
  assert (Htick : Forall lineOrAdminCall (tickEvents nm tick) /\
                  (List.length (filter isDispatch (tickEvents nm tick))
                   <= 2 * List.length (filter isAlertCreated (tickEvents nm tick)))%nat).
  { destruct tick as [runs|sample]; cbn [tickEvents]; [apply Hresults|].
    destruct sample; split; simpl; try lia; repeat constructor. }
  destruct Htick as [H1 H2]. split.
  - apply Forall_app. now split.
  - rewrite !filter_app, !length_app. lia.
Qed.

(** X20.  Whatever timers fire, with whatever observations and whatever
    the notification manager answers, the monitor only ever calls roles 1
    and 2: it never calls [sendToUser] and never another role, and it
    makes at most two calls for each alert it creates. *)
Theorem timers_only_call_admin_and_manager
    (gnm : IStorage -> NotificationManager) (ticks : list Tick) (s : State) :
  let s' := snd (fireAll gnm ticks s) in
  exists events,
    trace (host s') = (trace (host s) ++ events)%list /\
    Forall lineOrAdminCall events /\
    (forall userId data, ~ In (Event.toUser userId data) events) /\
    (List.length (dispatches s') - List.length (dispatches s)
     <= 2 * (alertsCreated s' - alertsCreated s))%nat.
Proof.
  intros s'. subst s'.
  exists (flat_map (tickEvents (gnm (storage (this s)))) ticks).
  destruct (tickEvents_bounded (gnm (storage (this s))) ticks) as [Hall Hbound].
  split; [apply fireAll_trace|]. split; [exact Hall|]. split.
  - intros userId data Hin. rewrite Forall_forall in Hall.
    exact (Hall _ Hin).
  - unfold dispatches, alertsCreated, count. rewrite fireAll_trace.
    rewrite !filter_app, !length_app. lia.
Qed.

(** * Properties of the assistant's string helpers *)

Lemma append_assoc (a b c : string) : (a ++ b) ++ c = a ++ (b ++ c).
Proof. induction a as [|x a IH]; simpl; [reflexivity|now rewrite IH]. Qed.

Lemma contains_within (s sub before after : string) :
  contains s sub -> contains (before ++ s ++ after) sub.
Proof.
  intros [b [a ->]]. exists (before ++ b), (a ++ after).
  now rewrite !append_assoc.
Qed.

(** X21.  [needsDataQuery] answers true exactly when the message
    contains one of the ten data keywords somewhere.  Hence it is false
    for the empty message, and a message that needs a data query still
    needs one when text is put before or after it. *)
Theorem needsDataQuery_by_keyword (message : string) :
  (AdvancedOpenAIService.needsDataQuery message = true <->
     exists keyword, In keyword AdvancedOpenAIService.dataKeywords /\
                     contains message keyword) /\
  AdvancedOpenAIService.needsDataQuery "" = false /\
  (forall before after,
     AdvancedOpenAIService.needsDataQuery message = true ->
     AdvancedOpenAIService.needsDataQuery (before ++ message ++ after) = true).
Proof.
  assert (Hiff : forall m,
             AdvancedOpenAIService.needsDataQuery m = true <->
             exists keyword, In keyword AdvancedOpenAIService.dataKeywords /\
                             contains m keyword).
  { intros m. unfold AdvancedOpenAIService.needsDataQuery. rewrite existsb_exists.
    split; intros [k [Hin Hk]]; exists k; (split; [exact Hin|]);
      now apply includes_contains. }
  split; [apply Hiff|]. split; [reflexivity|].
  intros before after H. apply Hiff in H. destruct H as [k [Hin Hk]].
  apply Hiff. exists k. split; [exact Hin|]. now apply contains_within.
Qed.

(** A question about an order's state, inside a longer sentence. *)
Lemma needsDataQuery_by_keyword_witness :
  AdvancedOpenAIService.needsDataQuery ("ما " ++ "حالة الطلب" ++ " رقم 5؟") = true.
Proof.
  exact (proj2 (proj2 (needsDataQuery_by_keyword "حالة الطلب")) "ما " " رقم 5؟"
           eq_refl).
Defined.

Lemma getOwn_In (o : Js.Object) (k : string) (v : Js.Value) :
  Js.getOwn o k = Some v -> In (k, v) o.
Proof.
  induction o as [|[k0 v0] o IH]; simpl; [discriminate|].
  destruct (String.eqb_spec k0 k) as [->|Hne].
  - intros H. injection H as ->. now left.
  - intros H. right. now apply IH.
Qed.

(** X22.  [translateStatus] gives the Arabic label of a known status
    and returns any other status unchanged, the empty one included (for
    a status that is not the name of a member every object inherits).
    Translating is idempotent: no label is itself a status, so
    translating an already translated status changes nothing. *)
Theorem translateStatus_idempotent (status : string)
    (Hplain : Js.isInherited status = false) :
  exists label,
    AdvancedOpenAIService.translateStatus status = Js.str label /\
    AdvancedOpenAIService.translateStatus label = Js.str label /\
    (Js.getOwn AdvancedOpenAIService.statusMap status = None -> label = status) /\
    (forall known,
       Js.getOwn AdvancedOpenAIService.statusMap status = Some known ->
       known = Js.str label).
Proof.
  unfold AdvancedOpenAIService.translateStatus at 1. unfold Js.get.
  destruct (Js.getOwn AdvancedOpenAIService.statusMap status) as [v|] eqn:Hown.
  - apply getOwn_In in Hown. unfold AdvancedOpenAIService.statusMap in Hown.
    simpl in Hown.
    repeat (destruct Hown as [Hown|Hown];
            [injection Hown as <- <-; eexists;
             (split; [reflexivity|]); (split; [reflexivity|]);
             (split; [discriminate|]); intros known Hk; now injection Hk as <-|]).
    destruct Hown.
  - rewrite Hplain. exists status. split; [reflexivity|].
    split; [|split; [reflexivity|discriminate]].
    unfold AdvancedOpenAIService.translateStatus, Js.get. now rewrite Hown, Hplain.
Qed.

(** A machine under maintenance, and a status the table does not know. *)
Lemma translateStatus_idempotent_witness :
  AdvancedOpenAIService.translateStatus "maintenance" = Js.str "صيانة" /\
  AdvancedOpenAIService.translateStatus "archived" = Js.str "archived".
Proof.
  split.
  - destruct (translateStatus_idempotent "maintenance" eq_refl)
      as [label [Hlabel [_ [_ Hknown]]]].
    rewrite Hlabel. symmetry. now apply Hknown.
  - destruct (translateStatus_idempotent "archived" eq_refl)
      as [label [Hlabel [_ [Hsame _]]]].
    rewrite Hlabel. f_equal. now apply Hsame.
Defined.
